(** * ElectricHouseSpider: a shallow embedding of [scrapers/electrichouse.py]

    The spider's callbacks are Python generators over values decoded by
    [json.loads].  They are embedded as functions that return the sequence
    of things a generator yields or logs, together with the way it ends
    (exhausted, or an exception escaping it). *)

From Stdlib Require Import ZArith List String Ascii Bool Lia.
From Stdlib Require Import Floats.SpecFloat.
Import ListNotations.

Local Open Scope string_scope.
Local Open Scope Z_scope.
Local Open Scope list_scope.

(* ===================================================================== *)
(** ** Values decoded by [json.loads] *)
(* ===================================================================== *)

(** A decoded JSON document as Python sees it: [None], [bool], [int],
    [float], [str], [list] and [dict].  A [dict] keeps its items in
    insertion order; [json.loads] leaves one item per key. A [str] is taken
    over the 256 characters of [ascii], one [ascii] per code point, so that
    [len] and iteration count code points; a str with a code point above
    255 has no counterpart here. *)
#[local] Set Warnings "-register-all".
Inductive json : Type :=
| JNull
| JBool (b : bool)
| JInt (n : Z)
| JFloat (f : spec_float)
| JString (s : string)
| JArray (items : list json)
| JObject (fields : list (string * json)).

#[local] Set Warnings "register-all".

Definition dict : Type := list (string * json).

(** [k in d] / [d[k]] on the items of a dict. *)
Fixpoint lookup (k : string) (d : dict) : option json :=
  match d with
  | [] => None
  | (k', v) :: rest => if String.eqb k k' then Some v else lookup k rest
  end.

Definition keys (d : dict) : list string := map fst d.

(** The exceptions that the spider's code can meet. *)
Inductive exn : Type :=
| JSONDecodeError
| UnicodeDecodeError
| ValueError
| AttributeError
| TypeError
| KeyError.

(** Evaluation of a Python expression: a value, or an exception. *)
Inductive result (A : Type) : Type :=
| Ok (a : A)
| Exc (e : exn).
Arguments Ok {A} a.
Arguments Exc {A} e.

Definition bind_result {A B : Type} (r : result A) (k : A -> result B) : result B :=
  match r with
  | Ok a => k a
  | Exc e => Exc e
  end.

Declare Scope py_scope.
Delimit Scope py_scope with py.
Notation "x <- e ;; k" := (bind_result e (fun x => k))
  (at level 100, e at next level, right associativity) : py_scope.
Local Open Scope py_scope.

Module Py.

(** [{}] and [[]], the defaults the code passes to [dict.get]. *)
Definition empty_dict : json := JObject [].
Definition empty_list : json := JArray [].

(** [o.get(k, default)]: only a dict has the method. *)
Definition get (o : json) (k : string) (default : json) : result json :=
  match o with
  | JObject d =>
      match lookup k d with
      | Some v => Ok v
      | None => Ok default
      end
  | _ => Exc AttributeError
  end.

(** [o[k]] with a [str] subscript. *)
Definition getitem (o : json) (k : string) : result json :=
  match o with
  | JObject d =>
      match lookup k d with
      | Some v => Ok v
      | None => Exc KeyError
      end
  | _ => Exc TypeError
  end.

(** [bool(v)]: what [if v:] and [v and ...] test. *)
Definition truthy (v : json) : bool :=
  match v with
  | JNull => false
  | JBool b => b
  | JInt n => negb (n =? 0)
  | JFloat (S754_zero _) => false
  | JFloat _ => true
  | JString s => negb (String.eqb s "")
  | JArray l => match l with [] => false | _ :: _ => true end
  | JObject d => match d with [] => false | _ :: _ => true end
  end.

(** [len(v)]. *)
Definition len (v : json) : result nat :=
  match v with
  | JString s => Ok (String.length s)
  | JArray l => Ok (List.length l)
  | JObject d => Ok (List.length d)
  | _ => Exc TypeError
  end.

(** The elements [for x in v] runs through: the elements of a list, the
    keys of a dict, the characters of a str. *)
Definition iter (v : json) : result (list json) :=
  match v with
  | JArray l => Ok l
  | JObject d => Ok (map JString (keys d))
  | JString s => Ok (map (fun c => JString (String c "")) (list_ascii_of_string s))
  | _ => Exc TypeError
  end.

(** [x in s] for two strs: [x] occurs in [s]. *)
Fixpoint occurs (x s : string) : bool :=
  String.prefix x s ||
  match s with
  | EmptyString => false
  | String _ rest => occurs x rest
  end.

(** [k in v] for a str [k]: a key of a dict, an element of a list, a
    substring of a str. *)
Definition contains (k : string) (v : json) : result bool :=
  match v with
  | JObject d => Ok (match lookup k d with Some _ => true | None => false end)
  | JArray l =>
      Ok (existsb (fun e => match e with JString s => String.eqb k s | _ => false end) l)
  | JString s => Ok (occurs k s)
  | _ => Exc TypeError
  end.

(** [n < x] for an int [n] and a float [x], which Python compares
    exactly. *)
Definition lt_float (n : Z) (x : spec_float) : bool :=
  match x with
  | S754_zero _ => n <? 0
  | S754_infinity s => negb s
  | S754_nan => false
  | S754_finite s m e =>
      let v := if s then Z.neg m else Z.pos m in
      if 0 <=? e then n <? v * 2 ^ e else n * 2 ^ (- e) <? v
  end.

(** [n < v] for an int [n]. *)
Definition lt (n : Z) (v : json) : result bool :=
  match v with
  | JInt m => Ok (n <? m)
  | JBool b => Ok (n <? (if b then 1 else 0))
  | JFloat x => Ok (lt_float n x)
  | _ => Exc TypeError
  end.

End Py.

(* ===================================================================== *)
(** ** What a callback produces *)
(* ===================================================================== *)

Inductive level : Type := INFO | ERROR.

(** The four messages the spider logs, with the values they format. *)
Inductive message : Type :=
| FoundRootCategories (n : nat)
| FailedToDecode (url : string)
| GraphQLErrors (category_uid : json) (page : Z) (errors : json)
| Scraped (n : nat) (category_uid : json) (page : Z) (total_pages : json).

(** What a callback hands to the framework, in order: a log record, a
    product request ([fetch_products]: callback [parse_products] with
    [cb_kwargs = {category_uid, page}]) or a scraped item. *)
Inductive event : Type :=
| Log (lvl : level) (msg : message)
| Request (category_uid : json) (page : Z)
| Item (record : dict).

Inductive outcome : Type :=
| Finished
| Raised (e : exn).

(** A generator run to its end. *)
Definition gen : Type := (list event * outcome)%type.

Module Gen.

Definition done : gen := ([], Finished).
Definition emit (e : event) : gen := ([e], Finished).
Definition raise (e : exn) : gen := ([], Raised e).

(** [s1; s2]: the second statement runs if the first did not raise. *)
Definition seq (s1 s2 : gen) : gen :=
  match s1 with
  | (evs, Finished) => (evs ++ fst s2, snd s2)
  | (evs, Raised e) => (evs, Raised e)
  end.

(** A statement that starts by evaluating an expression. *)
Definition eval {A : Type} (r : result A) (k : A -> gen) : gen :=
  match r with
  | Ok a => k a
  | Exc e => raise e
  end.

(** [for x in l: body(x)] over the elements already enumerated. *)
Definition for_each {A : Type} (body : A -> gen) : list A -> gen :=
  fix loop (l : list A) : gen :=
    match l with
    | [] => done
    | x :: rest => seq (body x) (loop rest)
    end.

(** [try: body  except json.JSONDecodeError: handler]. *)
Definition try_except_JSONDecodeError (body handler : gen) : gen :=
  match body with
  | (evs, Raised JSONDecodeError) => (evs ++ fst handler, snd handler)
  | _ => body
  end.

End Gen.

Notation "s1 ;;; s2" := (Gen.seq s1 s2)
  (at level 100, right associativity) : py_scope.
Notation "x <~ e ;; k" := (Gen.eval e (fun x => k))
  (at level 100, e at next level, right associativity) : py_scope.

(* ===================================================================== *)
(** ** The spider *)
(* ===================================================================== *)

(** What [json.loads] makes of the bytes of a body: it decodes them (as
    UTF-8, UTF-16 or UTF-32) and parses the text.  Bytes that are no such
    text raise [UnicodeDecodeError]; text that is not JSON raises
    [json.JSONDecodeError]; an integer literal longer than the interpreter's
    digit limit raises a plain [ValueError]. *)
Inductive Body : Type :=
| Decoded (data : json)
| NotJson
| NotUnicode
| IntegerTooLong.

(** A response as a callback reads it: [response.url] and
    [response.body]. *)
Record Response : Type := mkResponse {
  url : string;
  body : Body
}.

Definition json_loads (response : Response) : result json :=
  match body response with
  | Decoded data => Ok data
  | NotJson => Exc JSONDecodeError
  | NotUnicode => Exc UnicodeDecodeError
  | IntegerTooLong => Exc ValueError
  end.

Module ElectricHouseSpider.

Import Gen.

Definition api_url : string := "https://electric-house.com/graphql".

Definition logger_info (m : message) : gen := emit (Log INFO m).
Definition logger_error (m : message) : gen := emit (Log ERROR m).

(** [fetch_products(category_uid, page)] yields one request. *)
Definition fetch_products (category_uid : json) (page : Z) : gen :=
  emit (Request category_uid page).

(** [process_product_item(item)]: the lookups in the order Python makes
    them, then the dict literal. *)
Definition process_product_item (item : json) : result dict :=
  price_range <- Py.get item "price_range" Py.empty_dict ;;
  price_info <- Py.get price_range "maximum_price" Py.empty_dict ;;
  fp <- Py.get price_info "final_price" Py.empty_dict ;;
  final_price <- Py.get fp "value" JNull ;;
  rp <- Py.get price_info "regular_price" Py.empty_dict ;;
  regular_price <- Py.get rp "value" JNull ;;
  fp' <- Py.get price_info "final_price" Py.empty_dict ;;
  currency <- Py.get fp' "currency" JNull ;;
  discount <- Py.get price_info "discount" Py.empty_dict ;;
  id <- Py.get item "id" JNull ;;
  uid <- Py.get item "uid" JNull ;;
  sku <- Py.get item "sku" JNull ;;
  name <- Py.get item "name" JNull ;;
  url_key <- Py.get item "url_key" JNull ;;
  stock_status <- Py.get item "stock_status" JNull ;;
  discount_amount <- Py.get discount "amount_off" JNull ;;
  discount_percent <- Py.get discount "percent_off" JNull ;;
  small_image <- Py.get item "small_image" Py.empty_dict ;;
  image_url <- Py.get small_image "url" JNull ;;
  description <- Py.get item "description" Py.empty_dict ;;
  html <- Py.get description "html" JNull ;;
  Ok [ ("id", id);
       ("uid", uid);
       ("sku", sku);
       ("name", name);
       ("url_key", url_key);
       ("stock_status", stock_status);
       ("final_price", final_price);
       ("regular_price", regular_price);
       ("currency", currency);
       ("discount_amount", discount_amount);
       ("discount_percent", discount_percent);
       ("image_url", image_url);
       ("description", html);
       ("source_site", JString "electric-house") ].

(** The lookup of [k] in a dict that also hands back what [f] makes of
    the value found: [traverse_categories] descends into a value it has
    looked up, and the recursion has to stay visibly inside [cat]. *)
Section LookupWith.
Context {A : Type} (f : json -> A).

Fixpoint lookup_with (k : string) (d : dict) : option (json * A) :=
  match d with
  | [] => None
  | (k', v) :: rest =>
      if String.eqb k k' then Some (v, f v) else lookup_with k rest
  end.
End LookupWith.

(** The [else] branch of the loop body: a leaf category, scraped when its
    uid is truthy. *)
Definition scrape_leaf (cat : json) : gen :=
  uid <~ Py.get cat "uid" JNull ;;
  if Py.truthy uid then fetch_products uid 1 else done.

(** The body of [for cat in cats], with [self] the traversal itself. *)
Definition visit_category (self : json -> gen) (cat : json) : gen :=
  match cat with
  | JObject d =>
      match lookup_with self "children" d with
      | Some (children, below) =>
          if Py.truthy children then
            n <~ Py.len children ;;
            if (0 <? n)%nat then below else scrape_leaf cat
          else scrape_leaf cat
      | None => scrape_leaf cat
      end
  | _ => raise AttributeError
  end.

(** [traverse_categories(cats)], the helper nested in [parse_categories].
    Iterating a dict or a str gives strs, on which [cat.get] raises before
    any descent. *)
Fixpoint traverse_categories (cats : json) : gen :=
  match cats with
  | JArray l => for_each (visit_category traverse_categories) l
  | _ =>
      elements <~ Py.iter cats ;;
      for_each (visit_category (fun _ => done)) elements
  end.

(** The loop body as the source writes it, [self] standing for the
    recursive call: [traverse_categories_unfold] below shows that
    [traverse_categories] is the function that runs it on every element. *)
Definition loop_body (self : json -> gen) (cat : json) : gen :=
  children <~ Py.get cat "children" JNull ;;
  descend <~ (if Py.truthy children
              then (c <- Py.getitem cat "children" ;;
                    n <- Py.len c ;;
                    Ok (0 <? n)%nat)
              else Ok false) ;;
  if descend
  then (c <~ Py.getitem cat "children" ;; self c)
  else scrape_leaf cat.

(** [parse_categories(response)]. *)
Definition parse_categories (response : Response) : gen :=
  try_except_JSONDecodeError
    (data <~ json_loads response ;;
     d <~ Py.get data "data" Py.empty_dict ;;
     categories <~ Py.get d "categoryList" Py.empty_list ;;
     n <~ Py.len categories ;;
     (logger_info (FoundRootCategories n) ;;;
      traverse_categories categories))
    (logger_error (FailedToDecode (url response))).

(** [parse_products(response, category_uid, page)]. *)
Definition parse_products (response : Response) (category_uid : json) (page : Z) : gen :=
  try_except_JSONDecodeError
    (data <~ json_loads response ;;
     has_errors <~ Py.contains "errors" data ;;
     if has_errors then
       errors <~ Py.getitem data "errors" ;;
       logger_error (GraphQLErrors category_uid page errors)
     else
       d <~ Py.get data "data" Py.empty_dict ;;
       products_data <~ Py.get d "products" Py.empty_dict ;;
       items <~ Py.get products_data "items" Py.empty_list ;;
       page_info <~ Py.get products_data "page_info" Py.empty_dict ;;
       total_pages <~ Py.get page_info "total_pages" (JInt 1) ;;
       n <~ Py.len items ;;
       (logger_info (Scraped n category_uid page total_pages) ;;;
        (elements <~ Py.iter items ;;
         for_each (fun item => record <~ process_product_item item ;; emit (Item record))
                  elements) ;;;
        (more <~ Py.lt page total_pages ;;
         if more then fetch_products category_uid (page + 1) else done)))
    (logger_error (FailedToDecode (url response))).

End ElectricHouseSpider.

(* ===================================================================== *)
(** ** The framework's side of pagination *)
(* ===================================================================== *)

(** Scrapy takes each yielded request, fetches it and calls the request's
    callback on the response; what the callback yields is handled the same
    way. An exception escaping a callback ends that callback only: what it
    yielded before stays. The upstream API is a function from the variables
    of the product query to the response the callback receives. *)
Module Engine.

Import ElectricHouseSpider.

Definition Server : Type := json -> Z -> Response.

Definition requests_of (evs : list event) : list (json * Z) :=
  flat_map (fun e => match e with Request u p => [(u, p)] | _ => [] end) evs.

Definition items_of (evs : list event) : list dict :=
  flat_map (fun e => match e with Item r => [r] | _ => [] end) evs.

(** Serve the pending requests until none is left; [None] when [fuel]
    callbacks were not enough. The result is everything the callbacks
    produced, in order. *)
Fixpoint run (fuel : nat) (server : Server) (pending : list (json * Z))
  : option (list event) :=
  match pending with
  | [] => Some []
  | (category_uid, page) :: rest =>
      match fuel with
      | O => None
      | S fuel' =>
          let produced := fst (parse_products (server category_uid page) category_uid page) in
          option_map (app produced)
                     (run fuel' server (rest ++ requests_of produced))
      end
  end.

(** The products of one category: [fetch_products(uid, page=1)] and
    everything that follows from it. *)
Definition crawl_category (fuel : nat) (server : Server) (category_uid : json)
  : option (list event) :=
  let first := fst (fetch_products category_uid 1) in
  option_map (app first) (run fuel server (requests_of first)).

End Engine.

(* ===================================================================== *)
(** ** The category tree of the data model *)
(* ===================================================================== *)

(** A category as the category query selects it: [id], [uid], [name],
    [url_path] and the ordered children, to any depth. *)
#[local] Set Warnings "-register-all".
Inductive CategoryNode : Type :=
| Category (id : Z) (uid name url_path : string) (children : list CategoryNode).
#[local] Set Warnings "register-all".

Definition uid_of (c : CategoryNode) : string :=
  match c with Category _ uid _ _ _ => uid end.

Definition children_of (c : CategoryNode) : list CategoryNode :=
  match c with Category _ _ _ _ children => children end.

(** Induction with the hypothesis on every child. *)
Section CategoryInduction.
Variable P : CategoryNode -> Prop.
Hypothesis step : forall id uid name url_path children,
    Forall P children -> P (Category id uid name url_path children).

Fixpoint CategoryNode_children_ind (c : CategoryNode) : P c :=
  match c with
  | Category id uid name url_path children =>
      step id uid name url_path children
           ((fix all (l : list CategoryNode) : Forall P l :=
               match l with
               | [] => Forall_nil P
               | x :: rest => Forall_cons x (CategoryNode_children_ind x) (all rest)
               end) children)
  end.
End CategoryInduction.

(** The node as it stands in the decoded response. *)
Fixpoint node_json (c : CategoryNode) : json :=
  match c with
  | Category id uid name url_path children =>
      JObject [ ("id", JInt id);
                ("uid", JString uid);
                ("name", JString name);
                ("url_path", JString url_path);
                ("children", JArray (map node_json children)) ]
  end.

Definition tree_json (t : list CategoryNode) : json := JArray (map node_json t).

Definition tree_response (t : list CategoryNode) : Response :=
  mkResponse ElectricHouseSpider.api_url
             (Decoded (JObject [("data", JObject [("categoryList", tree_json t)])])).

(** The resolver's contract in the specification's words: the nodes with an
    empty children sequence, in pre-order. *)
Module Spec.

Fixpoint preorder (c : CategoryNode) : list CategoryNode :=
  match c with
  | Category _ _ _ _ children => c :: flat_map preorder children
  end.

Definition is_leaf (c : CategoryNode) : bool :=
  match children_of c with
  | [] => true
  | _ :: _ => false
  end.

Definition leaves (t : list CategoryNode) : list CategoryNode :=
  filter is_leaf (flat_map preorder t).

End Spec.

(** The request that starts the scrape of a category. *)
Definition scrape_of (c : CategoryNode) : event := Request (JString (uid_of c)) 1.

(** The guard [if uid:] on a uid that is a str. *)
Definition has_uid (c : CategoryNode) : bool := negb (String.eqb (uid_of c) "").

(** What the traversal yields for a tree, as the code decides it. *)
Definition scrape_targets (t : list CategoryNode) : list event :=
  map scrape_of (filter has_uid (Spec.leaves t)).

(* ===================================================================== *)
(** ** Generators: sequencing and loops *)
(* ===================================================================== *)

Section GeneratorFacts.

Import Gen.

Lemma seq_finished (evs : list event) (s : gen) :
  seq (evs, Finished) s = (evs ++ fst s, snd s).
Proof. reflexivity. Qed.

Lemma seq_done_r (s : gen) : seq s done = s.
Proof.
  destruct s as [evs [|e]]; cbn; [rewrite app_nil_r|]; reflexivity.
Qed.

Lemma for_each_cons {A : Type} (body : A -> gen) (x : A) (l : list A) :
  for_each body (x :: l) = seq (body x) (for_each body l).
Proof. reflexivity. Qed.

(** A loop whose every round runs to its end yields the rounds' events in
    order and ends normally. *)
Lemma for_each_finished {A : Type} (body : A -> gen) (evs : A -> list event)
      (l : list A) :
  Forall (fun x => body x = (evs x, Finished)) l ->
  for_each body l = (flat_map evs l, Finished).
Proof.
  induction 1 as [|x l Hx _ IH]; [reflexivity|].
  rewrite for_each_cons, Hx, IH. reflexivity.
Qed.

(** Two bodies that agree on the elements give the same loop. *)
Lemma for_each_ext {A : Type} (f g : A -> gen) (l : list A) :
  Forall (fun x => f x = g x) l -> for_each f l = for_each g l.
Proof.
  induction 1 as [|x l Hx _ IH]; [reflexivity|].
  rewrite !for_each_cons, Hx, IH. reflexivity.
Qed.

Lemma for_each_map {A B : Type} (g : A -> B) (body : B -> gen) (l : list A) :
  for_each body (map g l) = for_each (fun x => body (g x)) l.
Proof.
  induction l as [|x l IH]; [reflexivity|].
  cbn [map]. rewrite !for_each_cons, IH. reflexivity.
Qed.

End GeneratorFacts.

(* ===================================================================== *)
(** ** Category resolution *)
(* ===================================================================== *)

Section Traversal.

Import Gen ElectricHouseSpider.

Lemma lookup_with_lookup {A : Type} (f : json -> A) (k : string) (d : dict) :
  lookup_with f k d = option_map (fun v => (v, f v)) (lookup k d).
Proof.
  induction d as [|[k' v] d IH]; cbn; [reflexivity|].
  destruct (String.eqb k k'); [reflexivity|exact IH].
Qed.

Lemma traverse_categories_array (l : list json) :
  traverse_categories (JArray l) = for_each (visit_category traverse_categories) l.
Proof. reflexivity. Qed.

Lemma visit_category_loop_body (self : json -> gen) (cat : json) :
  visit_category self cat = loop_body self cat.
Proof.
  destruct cat as [| | | | |l|d]; try reflexivity.
  unfold visit_category, loop_body, Py.get, Py.getitem.
  rewrite lookup_with_lookup.
  destruct (lookup "children" d) as [c|]; [|reflexivity].
  cbn [option_map eval]. destruct (Py.truthy c); [|reflexivity].
  cbn [bind_result]. destruct (Py.len c) as [n|e]; [|reflexivity].
  cbn [bind_result eval]. destruct (0 <? n)%nat; reflexivity.
Qed.

(** The traversal satisfies the recursive equation the source states. *)
Lemma traverse_categories_unfold (cats : json) :
  traverse_categories cats =
  (elements <~ Py.iter cats ;; for_each (loop_body traverse_categories) elements).
Proof.
  destruct cats as [| | | |s|l|d]; try reflexivity.
  - cbn [traverse_categories Py.iter eval]. rewrite !for_each_map.
    apply for_each_ext, Forall_forall. reflexivity.
  - rewrite traverse_categories_array. cbn [Py.iter eval].
    apply for_each_ext, Forall_forall. intros cat _.
    apply visit_category_loop_body.
  - cbn [traverse_categories Py.iter eval]. rewrite !for_each_map.
    apply for_each_ext, Forall_forall. reflexivity.
Qed.

Lemma scrape_targets_cons (c : CategoryNode) (t : list CategoryNode) :
  scrape_targets (c :: t) = scrape_targets [c] ++ scrape_targets t.
Proof.
  unfold scrape_targets, Spec.leaves. cbn [flat_map].
  rewrite app_nil_r, !filter_app, map_app. reflexivity.
Qed.

Lemma scrape_targets_flat_map (t : list CategoryNode) :
  flat_map (fun c => scrape_targets [c]) t = scrape_targets t.
Proof.
  induction t as [|c t IH]; [reflexivity|].
  rewrite scrape_targets_cons. cbn [flat_map]. now rewrite IH.
Qed.

Lemma scrape_targets_inner (id : Z) (uid name url_path : string)
      (c : CategoryNode) (cs : list CategoryNode) :
  scrape_targets [Category id uid name url_path (c :: cs)] = scrape_targets (c :: cs).
Proof.
  unfold scrape_targets, Spec.leaves. cbn [flat_map Spec.preorder].
  rewrite app_nil_r. reflexivity.
Qed.

(** One round of the loop on a node of a category tree. *)
Lemma visit_category_node (c : CategoryNode) :
  visit_category traverse_categories (node_json c) = (scrape_targets [c], Finished).
Proof.
  induction c as [id uid name url_path children IH] using CategoryNode_children_ind.
  cbn [node_json]. unfold visit_category.
  rewrite lookup_with_lookup. cbn [lookup String.eqb Ascii.eqb Bool.eqb option_map].
  destruct children as [|c cs].
  - cbn. unfold scrape_targets, has_uid. cbn.
    destruct (String.eqb uid ""); reflexivity.
  - cbn [map Py.truthy Py.len List.length eval Nat.ltb Nat.leb].
    change (JArray (node_json c :: map node_json cs))
      with (JArray (map node_json (c :: cs))).
    rewrite traverse_categories_array, scrape_targets_inner.
    rewrite <- (scrape_targets_flat_map (c :: cs)), for_each_map.
    apply for_each_finished, IH.
Qed.

Lemma traverse_categories_tree (t : list CategoryNode) :
  traverse_categories (tree_json t) = (scrape_targets t, Finished).
Proof.
  unfold tree_json.
  rewrite traverse_categories_array, for_each_map, <- scrape_targets_flat_map.
  apply for_each_finished, Forall_forall. intros c _. apply visit_category_node.
Qed.

End Traversal.

(** C1, as the claim states it: the traversal emits every childless node. *)
Definition emits_every_leaf (t : list CategoryNode) : Prop :=
  fst (ElectricHouseSpider.traverse_categories (tree_json t))
  = map scrape_of (Spec.leaves t).

(** C1 (counterexample). A childless root whose uid is the empty string is
    a leaf of the tree, and the traversal yields nothing for it. *)
Lemma leaf_with_empty_uid_not_emitted :
  ~ emits_every_leaf [Category 7 "" "Misc" "misc" []].
Proof. unfold emits_every_leaf. cbn. discriminate. Qed.

(** C1 (amended). For every category tree, of any depth, the traversal
    yields one product request (page 1) for exactly the nodes whose children
    sequence is empty and whose uid is not the empty string, in pre-order,
    and ends without raising; a node with children is never among them; for
    the empty tree nothing is yielded. [parse_categories] yields the same
    after its line on the number of roots. *)
Theorem traverse_categories_leaves_with_uid (t : list CategoryNode) :
  ElectricHouseSpider.traverse_categories (tree_json t)
  = (map scrape_of (filter has_uid (Spec.leaves t)), Finished)
  /\ ElectricHouseSpider.parse_categories (tree_response t)
     = (Log INFO (FoundRootCategories (List.length t))
          :: map scrape_of (filter has_uid (Spec.leaves t)),
        Finished)
  /\ (forall c, In c (Spec.leaves t) <->
                In c (flat_map Spec.preorder t) /\ children_of c = [])
  /\ ElectricHouseSpider.traverse_categories (tree_json []) = ([], Finished).
Proof.
  split; [apply traverse_categories_tree|].
  split.
  - unfold ElectricHouseSpider.parse_categories, tree_response, json_loads.
    cbn -[ElectricHouseSpider.traverse_categories tree_json].
    rewrite traverse_categories_tree.
    unfold tree_json. cbn. rewrite length_map. reflexivity.
  - split; [|reflexivity].
    intros c. unfold Spec.leaves. rewrite filter_In. unfold Spec.is_leaf.
    destruct (children_of c); intuition congruence.
Qed.

(** A children entry as the category query can return it: absent (the
    deepest selected level), null, or a list. *)
Definition is_child_list (entry : option json) : bool :=
  match entry with
  | None | Some JNull | Some (JArray _) => true
  | Some _ => false
  end.

(** C10. A category node, wherever it stands among its siblings, starts a
    product scrape (one request for its uid, page 1) if and only if its
    children entry is absent, null or an empty list and its uid is present
    and truthy; with such a children entry and a uid that is missing or
    falsy (null, the empty string) it contributes nothing, silently; with a
    non-empty children list only the children are traversed. *)
Theorem scrape_iff_childless_and_uid (d : dict) (rest : list json) :
  is_child_list (lookup "children" d) = true ->
  ElectricHouseSpider.traverse_categories (JArray (JObject d :: rest))
  = Gen.seq
      match lookup "children" d with
      | Some (JArray (c :: cs)) =>
          ElectricHouseSpider.traverse_categories (JArray (c :: cs))
      | _ =>
          match lookup "uid" d with
          | Some uid =>
              if Py.truthy uid then ([Request uid 1], Finished) else ([], Finished)
          | None => ([], Finished)
          end
      end
      (ElectricHouseSpider.traverse_categories (JArray rest))
  /\ Py.truthy JNull = false
  /\ Py.truthy (JString "") = false.
Proof.
  intros Hc. split; [|split; reflexivity].
  rewrite !traverse_categories_array, for_each_cons. f_equal.
  unfold ElectricHouseSpider.visit_category.
  rewrite lookup_with_lookup.
  assert (Hleaf : ElectricHouseSpider.scrape_leaf (JObject d)
                  = match lookup "uid" d with
                    | Some uid =>
                        if Py.truthy uid then ([Request uid 1], Finished) else ([], Finished)
                    | None => ([], Finished)
                    end).
  { unfold ElectricHouseSpider.scrape_leaf, Py.get.
    destruct (lookup "uid" d) as [u|]; reflexivity. }
  destruct (lookup "children" d) as [[| | | | |[|c cs]|]|]; try discriminate Hc;
    cbn [option_map Py.truthy]; try exact Hleaf.
  reflexivity.
Qed.

(** C10 (witness): a node of the deepest selected level, which has no
    children entry. *)
Lemma scrape_iff_childless_and_uid_witness :
  let d := [("id", JInt 41); ("uid", JString "NDE="); ("name", JString "Fans")] in
  is_child_list (lookup "children" d) = true
  /\ ElectricHouseSpider.traverse_categories (JArray [JObject d])
     = ([Request (JString "NDE=") 1], Finished).
Proof.
  split; [reflexivity|].
  destruct (scrape_iff_childless_and_uid
              [("id", JInt 41); ("uid", JString "NDE="); ("name", JString "Fans")] []
              eq_refl) as [H _].
  exact H.
Defined.

(* ===================================================================== *)
(** ** Product pages *)
(* ===================================================================== *)

(** The response carries a product page: a dict without a top-level
    [errors], whose [data.products] holds the list [items] and a
    [page_info] with [total_pages]. *)
Definition reports (r : Response) (items : list json) (total_pages : json) : Prop :=
  exists d dd pd pi,
    body r = Decoded (JObject d)
    /\ lookup "errors" d = None
    /\ lookup "data" d = Some (JObject dd)
    /\ lookup "products" dd = Some (JObject pd)
    /\ lookup "items" pd = Some (JArray items)
    /\ lookup "page_info" pd = Some (JObject pi)
    /\ lookup "total_pages" pi = Some total_pages.

(** A page in the shape the product query selects. *)
Definition page_response (items : list json) (current_page : Z) (total_pages : json)
  : Response :=
  mkResponse ElectricHouseSpider.api_url
    (Decoded (JObject
       [("data", JObject
          [("products", JObject
             [("total_count", JInt (Z.of_nat (List.length items)));
              ("page_info", JObject [("current_page", JInt current_page);
                                     ("total_pages", total_pages)]);
              ("items", JArray items)])])])).

(** The raw node is one the normalizer turns into a record. *)
Definition normalizes (item : json) : Prop :=
  exists record, ElectricHouseSpider.process_product_item item = Ok record.

Section ProductPages.

Import Gen ElectricHouseSpider Engine.

Lemma page_response_reports (items : list json) (p : Z) (tp : json) :
  reports (page_response items p tp) items tp.
Proof.
  unfold reports, page_response. do 4 eexists. cbn.
  repeat split; reflexivity.
Qed.

Lemma lt_raises_TypeError (n : Z) (v : json) (e : exn) :
  Py.lt n v = Exc e -> e = TypeError.
Proof. destruct v; cbn; congruence. Qed.

Lemma normalizes_all (items : list json) :
  Forall normalizes items ->
  exists records, map process_product_item items = map Ok records.
Proof.
  induction 1 as [|item items [r Hr] _ [rs IH]].
  - exists []. reflexivity.
  - exists (r :: rs). cbn. now rewrite Hr, IH.
Qed.

(** The loop [for item in items: yield self.process_product_item(item)]
    on nodes that normalize. *)
Lemma yield_items (items : list json) (records : list dict) :
  map process_product_item items = map Ok records ->
  for_each (fun item => record <~ process_product_item item ;; emit (Item record)) items
  = (map Item records, Finished).
Proof.
  revert records. induction items as [|item items IH]; intros [|r rs] H;
    try discriminate H; [reflexivity|].
  cbn [map] in H. injection H as Hr Hrs.
  rewrite for_each_cons, Hr, (IH _ Hrs). reflexivity.
Qed.

(** The callback on a product page whose nodes normalize: the log line,
    the records in the page's order, then the decision on the next page. *)
Lemma parse_products_page (r : Response) (items : list json) (tp : json)
      (records : list dict) (uid : json) (page : Z) :
  reports r items tp ->
  map process_product_item items = map Ok records ->
  parse_products r uid page
  = seq (Log INFO (Scraped (List.length items) uid page tp) :: map Item records, Finished)
        (more <~ Py.lt page tp ;;
         if more then fetch_products uid (page + 1) else done).
Proof.
  intros (d & dd & pd & pi & Hb & He & Hd & Hp & Hi & Hpi & Ht) Hrec.
  unfold parse_products, json_loads. rewrite Hb. cbn [eval].
  unfold Py.contains. rewrite He. cbn [eval].
  unfold Py.get at 1. rewrite Hd. cbn [eval].
  unfold Py.get at 1. rewrite Hp. cbn [eval].
  unfold Py.get at 1. rewrite Hi. cbn [eval].
  unfold Py.get at 1. rewrite Hpi. cbn [eval].
  unfold Py.get at 1. rewrite Ht. cbn [eval Py.len Py.iter].
  rewrite (yield_items _ _ Hrec).
  destruct (Py.lt page tp) as [[|]|e] eqn:Hlt; try reflexivity.
  rewrite (lt_raises_TypeError _ _ _ Hlt). cbn. rewrite app_nil_r. reflexivity.
Qed.

End ProductPages.

(** C4, as the claim states it: once an empty page has been consumed, no
    further page is requested. *)
Definition stops_after_empty_page (r : Response) (uid : json) (page : Z) : Prop :=
  Engine.requests_of (fst (ElectricHouseSpider.parse_products r uid page)) = [].

(** C4 (counterexample). Page 1 comes back with no items and
    [total_pages = 3]: the callback yields the request for page 2. *)
Lemma empty_page_still_paginates :
  reports (page_response [] 1 (JInt 3)) [] (JInt 3)
  /\ ~ stops_after_empty_page (page_response [] 1 (JInt 3)) (JString "NDE=") 1.
Proof.
  split; [apply page_response_reports|].
  unfold stops_after_empty_page. cbn. discriminate.
Qed.

(** C4 (amended). After a page whose items list is empty the callback logs
    the page, yields no item, and requests page + 1 exactly when
    page < total_pages: an empty page ends the category's pagination if and
    only if the reported total_pages is not above the current page. *)
Theorem empty_page_follows_total_pages (r : Response) (n : Z) (uid : json) (page : Z) :
  reports r [] (JInt n) ->
  ElectricHouseSpider.parse_products r uid page
  = (Log INFO (Scraped 0 uid page (JInt n))
       :: (if page <? n then [Request uid (page + 1)] else []),
     Finished)
  /\ (Engine.requests_of (fst (ElectricHouseSpider.parse_products r uid page)) = []
      <-> n <= page).
Proof.
  intros Hr.
  assert (E : ElectricHouseSpider.parse_products r uid page
              = (Log INFO (Scraped 0 uid page (JInt n))
                   :: (if page <? n then [Request uid (page + 1)] else []),
                 Finished)).
  { rewrite (parse_products_page r [] (JInt n) [] uid page Hr eq_refl).
    cbn. destruct (page <? n); reflexivity. }
  split; [exact E|].
  rewrite E. cbn. destruct (Z.ltb_spec page n) as [Hlt|Hge]; cbn; split; intros G;
    try discriminate G; try reflexivity; lia.
Qed.

(** C4 (witness): an empty last page. *)
Lemma empty_page_follows_total_pages_witness :
  reports (page_response [] 2 (JInt 2)) [] (JInt 2)
  /\ ElectricHouseSpider.parse_products (page_response [] 2 (JInt 2)) (JString "NDE=") 2
     = ([Log INFO (Scraped 0 (JString "NDE=") 2 (JInt 2))], Finished).
Proof.
  split; [apply page_response_reports|].
  exact (proj1 (empty_page_follows_total_pages
                  (page_response [] 2 (JInt 2)) 2 (JString "NDE=") 2
                  (page_response_reports [] 2 (JInt 2)))).
Defined.

(** C5. A response whose decoded body is a dict with a top-level [errors]
    key makes the callback log the errors and return: no item, no request,
    no exception. Served for any pending request it leaves nothing to
    fetch; served for page 1 the whole category is one request and no
    item. *)
Theorem graphql_errors_end_category (r : Response) (d : dict) (errors : json)
        (uid : json) (page : Z) :
  body r = Decoded (JObject d) ->
  lookup "errors" d = Some errors ->
  ElectricHouseSpider.parse_products r uid page
  = ([Log ERROR (GraphQLErrors uid page errors)], Finished)
  /\ (forall server fuel,
        server uid page = r ->
        Engine.run (S fuel) server [(uid, page)]
        = Some [Log ERROR (GraphQLErrors uid page errors)])
  /\ (forall server fuel,
        server uid 1 = r ->
        exists trace,
          Engine.crawl_category (S fuel) server uid = Some trace
          /\ Engine.requests_of trace = [(uid, 1)]
          /\ Engine.items_of trace = []).
Proof.
  intros Hb He.
  assert (E : forall p, ElectricHouseSpider.parse_products r uid p
                        = ([Log ERROR (GraphQLErrors uid p errors)], Finished)).
  { intros p. unfold ElectricHouseSpider.parse_products, json_loads.
    rewrite Hb. cbn [Gen.eval]. unfold Py.contains, Py.getitem.
    rewrite He. reflexivity. }
  split; [apply E|]. split.
  - intros server fuel Hs. cbn [Engine.run]. rewrite Hs, E. cbn.
    destruct fuel; reflexivity.
  - intros server fuel Hs. eexists. split.
    + unfold Engine.crawl_category. cbn [ElectricHouseSpider.fetch_products Gen.emit fst
        Engine.requests_of flat_map app Engine.run].
      rewrite Hs, E. cbn. destruct fuel; reflexivity.
    + split; reflexivity.
Qed.

(** C5 (witness): page 1 answered with a GraphQL error list. *)
Lemma graphql_errors_end_category_witness :
  let errors := JArray [JObject [("message", JString "Internal server error")]] in
  let d := [("errors", errors); ("data", JNull)] in
  let r := mkResponse ElectricHouseSpider.api_url (Decoded (JObject d)) in
  body r = Decoded (JObject d)
  /\ lookup "errors" d = Some errors
  /\ ElectricHouseSpider.parse_products r (JString "NDE=") 1
     = ([Log ERROR (GraphQLErrors (JString "NDE=") 1 errors)], Finished).
Proof.
  cbv zeta. split; [reflexivity|]. split; [reflexivity|].
  exact (proj1 (graphql_errors_end_category
                  (mkResponse ElectricHouseSpider.api_url
                     (Decoded (JObject
                        [("errors", JArray [JObject [("message", JString "Internal server error")]]);
                         ("data", JNull)])))
                  [("errors", JArray [JObject [("message", JString "Internal server error")]]);
                   ("data", JNull)]
                  (JArray [JObject [("message", JString "Internal server error")]])
                  (JString "NDE=") 1 eq_refl eq_refl)).
Defined.

(* ===================================================================== *)
(** ** Pagination of one category *)
(* ===================================================================== *)

(** The page numbers [first], [first + 1], ... ([count] of them). *)
Definition page_numbers (first count : nat) : list Z := map Z.of_nat (seq first count).

Section TraceFacts.

Import Engine.

Lemma requests_of_app (a b : list event) :
  requests_of (a ++ b) = requests_of a ++ requests_of b.
Proof. apply flat_map_app. Qed.

Lemma items_of_app (a b : list event) :
  items_of (a ++ b) = items_of a ++ items_of b.
Proof. apply flat_map_app. Qed.

Lemma requests_of_items (records : list dict) : requests_of (map Item records) = [].
Proof. induction records as [|r rs IH]; [reflexivity|exact IH]. Qed.

Lemma items_of_items (records : list dict) : items_of (map Item records) = records.
Proof. induction records as [|r rs IH]; [reflexivity|]. cbn. f_equal. exact IH. Qed.

Lemma requests_of_log (l : level) (m : message) (evs : list event) :
  requests_of (Log l m :: evs) = requests_of evs.
Proof. reflexivity. Qed.

Lemma items_of_log (l : level) (m : message) (evs : list event) :
  items_of (Log l m :: evs) = items_of evs.
Proof. reflexivity. Qed.

(** A page's log line and records hold no request, and its records are
    its items. *)
Lemma requests_of_page (m : message) (records : list dict) :
  requests_of (Log INFO m :: map Item records) = [].
Proof. apply requests_of_items. Qed.

Lemma items_of_page (m : message) (records : list dict) :
  items_of (Log INFO m :: map Item records) = records.
Proof. apply items_of_items. Qed.

End TraceFacts.

Section Pagination.

Import Gen ElectricHouseSpider Engine.

Variable server : Server.
Variable uid : json.
Variable N : nat.
Variable pages : Z -> list json.

(** Every page 1..N of the category reports [total_pages = N] ... *)
Hypothesis page_ok : forall p : nat,
    (1 <= p <= N)%nat ->
    reports (server uid (Z.of_nat p)) (pages (Z.of_nat p)) (JInt (Z.of_nat N)).

(** ... and holds raw nodes that the normalizer accepts. *)
Hypothesis items_ok : forall p : nat,
    (1 <= p <= N)%nat -> Forall normalizes (pages (Z.of_nat p)).

(** From the request for page [p] on, with [k] pages after it. *)
Lemma run_from_page (k : nat) :
  forall (p fuel : nat),
    (1 <= p)%nat -> (p + k = N)%nat -> (S k <= fuel)%nat ->
    exists trace,
      run fuel server [(uid, Z.of_nat p)] = Some trace
      /\ requests_of trace = map (pair uid) (page_numbers (S p) k)
      /\ map Ok (items_of trace)
         = map process_product_item (flat_map pages (page_numbers p (S k))).
Proof.
  induction k as [|k IH]; intros p fuel Hp Hk Hf;
    (destruct fuel as [|fuel]; [lia|]);
    destruct (normalizes_all _ (items_ok p ltac:(lia))) as [records Hrec];
    cbn [run];
    rewrite (parse_products_page _ _ _ records uid (Z.of_nat p)
               (page_ok p ltac:(lia)) Hrec);
    cbn [Py.lt eval].
  - replace (Z.of_nat p <? Z.of_nat N) with false
      by (symmetry; apply Z.ltb_ge; lia).
    rewrite seq_done_r. cbn [fst].
    rewrite requests_of_page, app_nil_r.
    eexists. split; [destruct fuel; reflexivity|].
    cbn [option_map]. rewrite app_nil_r, requests_of_page, items_of_page.
    split; [reflexivity|]. cbn. rewrite app_nil_r. symmetry. exact Hrec.
  - replace (Z.of_nat p <? Z.of_nat N) with true
      by (symmetry; apply Z.ltb_lt; lia).
    replace (Z.of_nat p + 1) with (Z.of_nat (S p)) by lia.
    cbn [fetch_products emit seq fst snd].
    destruct (IH (S p) fuel ltac:(lia) ltac:(lia) ltac:(lia))
      as (trace & Hrun & Hreq & Hit).
    rewrite requests_of_app, requests_of_page. cbn [app requests_of flat_map].
    rewrite Hrun. cbn [option_map]. eexists. split; [reflexivity|].
    rewrite requests_of_log, items_of_log, !requests_of_app, !items_of_app.
    rewrite requests_of_items, items_of_items, Hreq.
    split; [reflexivity|].
    cbn [items_of flat_map app].
    rewrite !map_app, Hit, <- Hrec.
    rewrite app_nil_r, <- map_app. reflexivity.
Qed.

(** Pagination on nodes that normalize. When every page 1..N of a category
    reports [total_pages = N]
    (N >= 1) and carries nodes the normalizer accepts, the crawl of the
    category ends after N callbacks and has requested exactly the pages
    1, 2, ..., N in that order (never N + 1; one request when N = 1), and
    the items yielded are the normalized nodes of page 1, then of page 2,
    ..., then of page N, each page in its own order. *)
Theorem pages_fetched_in_order (fuel : nat) :
  (1 <= N)%nat -> (N <= fuel)%nat ->
  exists trace,
    crawl_category fuel server uid = Some trace
    /\ requests_of trace = map (pair uid) (page_numbers 1 N)
    /\ map Ok (items_of trace)
       = map process_product_item (flat_map pages (page_numbers 1 N)).
Proof.
  intros HN Hfuel.
  destruct (run_from_page (N - 1) 1 fuel ltac:(lia) ltac:(lia) ltac:(lia))
    as (trace & Hrun & Hreq & Hit).
  unfold crawl_category. cbn [fetch_products emit fst requests_of flat_map app].
  change 1 with (Z.of_nat 1). rewrite Hrun. cbn [option_map].
  eexists. split; [reflexivity|].
  replace (S (N - 1)) with N in Hit by lia.
  split.
  - cbn [requests_of flat_map app]. fold (requests_of trace). rewrite Hreq.
    unfold page_numbers. destruct N as [|n]; [lia|].
    cbn [seq map]. replace (S n - 1)%nat with n by lia. reflexivity.
  - exact Hit.
Qed.

End Pagination.

(** An instance: category "uid-1" with two pages, [p1; p2] then [p3]. *)
Lemma pages_fetched_in_order_witness :
  let p1 := JObject [("id", JInt 1); ("sku", JString "FAN-16")] in
  let p2 := JObject [("id", JInt 2); ("sku", JString "FAN-18")] in
  let p3 := JObject [("id", JInt 3); ("sku", JString "IRON-2")] in
  let pages := fun p : Z => if p =? 1 then [p1; p2] else [p3] in
  let server := fun (_ : json) (p : Z) => page_response (pages p) p (JInt 2) in
  exists trace,
    Engine.crawl_category 2 server (JString "uid-1") = Some trace
    /\ Engine.requests_of trace = [(JString "uid-1", 1); (JString "uid-1", 2)]
    /\ map Ok (Engine.items_of trace)
       = map ElectricHouseSpider.process_product_item [p1; p2; p3].
Proof.
  cbv zeta.
  apply (pages_fetched_in_order
           (fun (_ : json) (p : Z) =>
              page_response
                (if p =? 1
                 then [JObject [("id", JInt 1); ("sku", JString "FAN-16")];
                       JObject [("id", JInt 2); ("sku", JString "FAN-18")]]
                 else [JObject [("id", JInt 3); ("sku", JString "IRON-2")]])
                p (JInt 2))
           (JString "uid-1") 2%nat
           (fun p : Z =>
              if p =? 1
              then [JObject [("id", JInt 1); ("sku", JString "FAN-16")];
                    JObject [("id", JInt 2); ("sku", JString "FAN-18")]]
              else [JObject [("id", JInt 3); ("sku", JString "IRON-2")]])).
  - intros p _. apply page_response_reports.
  - intros p _. destruct (Z.of_nat p =? 1);
      repeat constructor; eexists; reflexivity.
  - lia.
  - lia.
Defined.

(** C2 (the code at the failing input). Both pages of category "uid-1"
    report [total_pages = 2]; the second node of page 1 has
    [description: null]. The callback on page 1 yields the record of the
    first node and raises in the normalizer before it reaches the
    pagination test: the crawl of the category is over after the one
    request for page 1, with one item, and page 2 is never requested. *)
Theorem null_description_stops_pagination :
  let p1 := JObject [("id", JInt 1); ("sku", JString "FAN-16")] in
  let p2 := JObject [("id", JInt 2); ("sku", JString "FAN-18"); ("description", JNull)] in
  let p3 := JObject [("id", JInt 3); ("sku", JString "IRON-2")] in
  let pages := fun p : Z => if p =? 1 then [p1; p2] else [p3] in
  let server := fun (_ : json) (p : Z) => page_response (pages p) p (JInt 2) in
  (forall p, reports (server (JString "uid-1") p) (pages p) (JInt 2))
  /\ forall fuel,
      exists record,
        ElectricHouseSpider.process_product_item p1 = Ok record
        /\ Engine.crawl_category (S fuel) server (JString "uid-1")
           = Some [Request (JString "uid-1") 1;
                   Log INFO (Scraped 2 (JString "uid-1") 1 (JInt 2));
                   Item record].
Proof.
  cbv zeta. split; [intros p; apply page_response_reports|].
  intros fuel. eexists. split; [reflexivity|].
  unfold Engine.crawl_category. cbn. destruct fuel; reflexivity.
Qed.

(* ===================================================================== *)
(** ** The normalizer *)
(* ===================================================================== *)

(** The entry is absent or holds a dict: the two cases in which
    [.get(k, {})] hands a dict to the next [.get]. *)
Definition absent_or_dict (entry : option json) : bool :=
  match entry with
  | None | Some (JObject _) => true
  | Some _ => false
  end.

(** The dict under [k], empty when [k] is absent. *)
Definition block (d : dict) (k : string) : dict :=
  match lookup k d with
  | Some (JObject b) => b
  | _ => []
  end.

(** The value under [k], null when [k] is absent. *)
Definition field (d : dict) (k : string) : json :=
  match lookup k d with
  | Some v => v
  | None => JNull
  end.

(** Every nested block the normalizer walks through is absent or a dict. *)
Definition well_nested (d : dict) : bool :=
  let price_info := block (block d "price_range") "maximum_price" in
  absent_or_dict (lookup "price_range" d)
  && absent_or_dict (lookup "maximum_price" (block d "price_range"))
  && absent_or_dict (lookup "final_price" price_info)
  && absent_or_dict (lookup "regular_price" price_info)
  && absent_or_dict (lookup "discount" price_info)
  && absent_or_dict (lookup "small_image" d)
  && absent_or_dict (lookup "description" d).

(** The fourteen field names of a record, in the order of the dict
    literal. *)
Definition record_fields : list string :=
  [ "id"; "uid"; "sku"; "name"; "url_key"; "stock_status";
    "final_price"; "regular_price"; "currency";
    "discount_amount"; "discount_percent";
    "image_url"; "description"; "source_site" ].

Section Normalizer.

Import ElectricHouseSpider.

Lemma get_absent_or_dict (d : dict) (k : string) :
  absent_or_dict (lookup k d) = true ->
  Py.get (JObject d) k Py.empty_dict = Ok (JObject (block d k)).
Proof.
  unfold Py.get, block.
  destruct (lookup k d) as [[]|]; try discriminate; reflexivity.
Qed.

Lemma get_field (d : dict) (k : string) :
  Py.get (JObject d) k JNull = Ok (field d k).
Proof. unfold Py.get, field. destruct (lookup k d); reflexivity. Qed.

(** On a node whose nested blocks are absent or dicts the normalizer
    returns this record. *)
Lemma process_product_item_well_nested (d : dict) :
  well_nested d = true ->
  let price_info := block (block d "price_range") "maximum_price" in
  process_product_item (JObject d)
  = Ok [ ("id", field d "id");
         ("uid", field d "uid");
         ("sku", field d "sku");
         ("name", field d "name");
         ("url_key", field d "url_key");
         ("stock_status", field d "stock_status");
         ("final_price", field (block price_info "final_price") "value");
         ("regular_price", field (block price_info "regular_price") "value");
         ("currency", field (block price_info "final_price") "currency");
         ("discount_amount", field (block price_info "discount") "amount_off");
         ("discount_percent", field (block price_info "discount") "percent_off");
         ("image_url", field (block d "small_image") "url");
         ("description", field (block d "description") "html");
         ("source_site", JString "electric-house") ].
Proof.
  unfold well_nested. intros H.
  repeat (apply andb_prop in H; destruct H as [H ?]).
  unfold process_product_item.
  repeat (first [ rewrite get_absent_or_dict by assumption
                | rewrite get_field ];
          cbn [bind_result]).
  reflexivity.
Qed.

Lemma get_not_dict (d : dict) (k : string) :
  absent_or_dict (lookup k d) = false ->
  exists v, Py.get (JObject d) k Py.empty_dict = Ok v
            /\ forall k' default, Py.get v k' default = Exc AttributeError.
Proof.
  unfold Py.get at 1.
  destruct (lookup k d) as [v|]; [|discriminate].
  destruct v; try discriminate; intros _; eexists; split; reflexivity.
Qed.

(** Follow the lookups of [process_product_item] up to block [k] of [dd]:
    either the block is absent or a dict, or the next [.get] on it
    raises. *)
Ltac through_block dd k :=
  let E := fresh "E" in
  let v := fresh "v" in
  let Hg := fresh "Hg" in
  let Hv := fresh "Hv" in
  destruct (absent_or_dict (lookup k dd)) eqn:E;
  [ | destruct (get_not_dict dd k E) as (v & Hg & Hv);
      repeat (first [ rewrite Hg
                    | rewrite Hv
                    | rewrite get_field
                    | rewrite get_absent_or_dict by assumption ];
              cbn [bind_result]);
      reflexivity ].

(** A nested block that is present and not a dict makes it raise. *)
Lemma process_product_item_ill_nested (d : dict) :
  well_nested d = false ->
  process_product_item (JObject d) = Exc AttributeError.
Proof.
  unfold well_nested, process_product_item. intros H.
  through_block d "price_range".
  through_block (block d "price_range") "maximum_price".
  through_block (block (block d "price_range") "maximum_price") "final_price".
  through_block (block (block d "price_range") "maximum_price") "regular_price".
  through_block (block (block d "price_range") "maximum_price") "discount".
  through_block d "small_image".
  through_block d "description".
  discriminate H.
Qed.

(** The normalizer returns a record exactly on the dicts whose nested
    blocks are absent or dicts. *)
Lemma normalizes_iff_well_nested (d : dict) :
  normalizes (JObject d) <-> well_nested d = true.
Proof.
  split.
  - intros [r Hr]. destruct (well_nested d) eqn:E; [reflexivity|].
    rewrite (process_product_item_ill_nested d E) in Hr. discriminate Hr.
  - intros H. eexists. apply (process_product_item_well_nested d H).
Qed.

Lemma bind_result_ok {A B : Type} (e : result A) (k : A -> result B) (b : B) :
  bind_result e k = Ok b -> exists a, e = Ok a /\ k a = Ok b.
Proof. destruct e as [a|x]; cbn; [eauto|discriminate]. Qed.

End Normalizer.

(** C3 (the code at the failing input). The API answers a product that has
    no description with [description: null]; on that node the lookup
    [item.get("description", {})] returns [None] and [.get("html")] raises
    [AttributeError]: the normalizer is not total on raw nodes. *)
Theorem null_description_raises :
  ElectricHouseSpider.process_product_item
    (JObject
       [ ("id", JInt 1423);
         ("uid", JString "MTQyMw==");
         ("sku", JString "EH-FAN-16");
         ("name", JString "Stand Fan 16 inch");
         ("stock_status", JString "IN_STOCK");
         ("url_key", JString "stand-fan-16");
         ("price_range", JObject
            [("maximum_price", JObject
                [ ("final_price", JObject [("value", JInt 100); ("currency", JString "SAR")]);
                  ("regular_price", JObject [("value", JInt 150); ("currency", JString "SAR")]);
                  ("discount", JObject [("amount_off", JInt 50); ("percent_off", JInt 33)]) ])]);
         ("small_image", JObject [("url", JString "https://electric-house.com/media/fan16.jpg")]);
         ("description", JNull) ])
  = Exc AttributeError.
Proof. reflexivity. Qed.

(** Missing price blocks, on a raw node whose image and description blocks
    are absent or dicts: if the node has no [price_range] entry, the record's
    [final_price], [regular_price], [currency], [discount_amount] and
    [discount_percent] are all null and nothing is raised; if its price
    block has a [final_price] with a non-null value and no [discount]
    entry, the record's [final_price] is that value and both discount
    fields are null. *)
Theorem missing_price_blocks_give_null (d : dict) :
  absent_or_dict (lookup "small_image" d) = true ->
  absent_or_dict (lookup "description" d) = true ->
  (lookup "price_range" d = None ->
   exists r,
     ElectricHouseSpider.process_product_item (JObject d) = Ok r
     /\ lookup "final_price" r = Some JNull
     /\ lookup "regular_price" r = Some JNull
     /\ lookup "currency" r = Some JNull
     /\ lookup "discount_amount" r = Some JNull
     /\ lookup "discount_percent" r = Some JNull)
  /\ (forall pr mp fp v,
        lookup "price_range" d = Some (JObject pr) ->
        lookup "maximum_price" pr = Some (JObject mp) ->
        lookup "final_price" mp = Some (JObject fp) ->
        lookup "value" fp = Some v ->
        v <> JNull ->
        lookup "discount" mp = None ->
        absent_or_dict (lookup "regular_price" mp) = true ->
        exists r,
          ElectricHouseSpider.process_product_item (JObject d) = Ok r
          /\ lookup "final_price" r = Some v
          /\ lookup "discount_amount" r = Some JNull
          /\ lookup "discount_percent" r = Some JNull).
Proof.
  intros Himg Hdesc. split.
  - intros Hpr. eexists. split.
    + apply process_product_item_well_nested.
      unfold well_nested, block. rewrite Hpr, Himg, Hdesc. reflexivity.
    + unfold block. rewrite Hpr. repeat split; reflexivity.
  - intros pr mp fp v Hpr Hmp Hfp Hv _ Hdisc Hrp. eexists. split.
    + apply process_product_item_well_nested.
      unfold well_nested, block.
      rewrite Hpr, Hmp, Hfp, Hdisc, Hrp, Himg, Hdesc. reflexivity.
    + cbn [lookup String.eqb Ascii.eqb Bool.eqb].
      unfold block at 1 2 3. rewrite Hpr, Hmp, Hfp.
      unfold field at 1. rewrite Hv.
      unfold block. rewrite Hpr, Hmp, Hdisc. repeat split; reflexivity.
Qed.

(** Instances: a node without [price_range], and a node priced with
    [final_price] only. *)
Lemma missing_price_blocks_give_null_witness :
  (exists r,
      ElectricHouseSpider.process_product_item
        (JObject [("id", JInt 9); ("sku", JString "EH-KET-1")]) = Ok r
      /\ lookup "final_price" r = Some JNull
      /\ lookup "regular_price" r = Some JNull
      /\ lookup "currency" r = Some JNull
      /\ lookup "discount_amount" r = Some JNull
      /\ lookup "discount_percent" r = Some JNull)
  /\ (exists r,
         ElectricHouseSpider.process_product_item
           (JObject
              [("id", JInt 10);
               ("price_range", JObject
                  [("maximum_price", JObject
                      [("final_price", JObject [("value", JInt 75);
                                                ("currency", JString "SAR")])])])]) = Ok r
         /\ lookup "final_price" r = Some (JInt 75)
         /\ lookup "discount_amount" r = Some JNull
         /\ lookup "discount_percent" r = Some JNull).
Proof.
  split.
  - apply (proj1 (missing_price_blocks_give_null
                    [("id", JInt 9); ("sku", JString "EH-KET-1")] eq_refl eq_refl)).
    reflexivity.
  - apply (proj2 (missing_price_blocks_give_null
                    [("id", JInt 10);
                     ("price_range", JObject
                        [("maximum_price", JObject
                            [("final_price", JObject [("value", JInt 75);
                                                      ("currency", JString "SAR")])])])]
                    eq_refl eq_refl)
             [("maximum_price", JObject
                 [("final_price", JObject [("value", JInt 75); ("currency", JString "SAR")])])]
             [("final_price", JObject [("value", JInt 75); ("currency", JString "SAR")])]
             [("value", JInt 75); ("currency", JString "SAR")]
             (JInt 75));
      try reflexivity.
    discriminate.
Defined.

(** C7 (the code at the failing input). A node without [price_range] whose
    [description] is null, and a node priced with a [final_price] only
    whose [small_image] is null: on both the normalizer raises
    [AttributeError] instead of returning a record with null fields. *)
Theorem null_block_beside_missing_prices_raises :
  ElectricHouseSpider.process_product_item
    (JObject [("id", JInt 9); ("sku", JString "EH-KET-1"); ("description", JNull)])
  = Exc AttributeError
  /\ ElectricHouseSpider.process_product_item
       (JObject
          [("id", JInt 10);
           ("price_range", JObject
              [("maximum_price", JObject
                  [("final_price", JObject [("value", JInt 75);
                                            ("currency", JString "SAR")])])]);
           ("small_image", JNull)])
     = Exc AttributeError.
Proof. split; reflexivity. Qed.

(** Price fields, on a raw node (image and description blocks absent or
    dicts) whose
    price block carries [final_price {value, currency}],
    [regular_price {value}] and [discount {amount_off, percent_off}], the
    record's [final_price], [regular_price], [currency], [discount_amount]
    and [discount_percent] are those very values, whatever they are: for
    100, "SAR", 150, 50 and 33 the record holds 100, 150, "SAR", 50, 33. *)
Theorem price_fields_copied (d pr mp fp rp disc : dict)
        (final_value currency regular_value amount_off percent_off : json) :
  absent_or_dict (lookup "small_image" d) = true ->
  absent_or_dict (lookup "description" d) = true ->
  lookup "price_range" d = Some (JObject pr) ->
  lookup "maximum_price" pr = Some (JObject mp) ->
  lookup "final_price" mp = Some (JObject fp) ->
  lookup "regular_price" mp = Some (JObject rp) ->
  lookup "discount" mp = Some (JObject disc) ->
  lookup "value" fp = Some final_value ->
  lookup "currency" fp = Some currency ->
  lookup "value" rp = Some regular_value ->
  lookup "amount_off" disc = Some amount_off ->
  lookup "percent_off" disc = Some percent_off ->
  exists r,
    ElectricHouseSpider.process_product_item (JObject d) = Ok r
    /\ lookup "final_price" r = Some final_value
    /\ lookup "regular_price" r = Some regular_value
    /\ lookup "currency" r = Some currency
    /\ lookup "discount_amount" r = Some amount_off
    /\ lookup "discount_percent" r = Some percent_off.
Proof.
  intros Himg Hdesc Hpr Hmp Hfp Hrp Hdisc Hfv Hcur Hrv Hamt Hpct.
  eexists. split.
  - apply process_product_item_well_nested.
    unfold well_nested, block.
    rewrite Hpr, Hmp, Hfp, Hrp, Hdisc, Himg, Hdesc. reflexivity.
  - cbn [lookup String.eqb Ascii.eqb Bool.eqb].
    unfold block. rewrite Hpr, Hmp, Hfp, Hrp, Hdisc.
    unfold field. rewrite Hfv, Hcur, Hrv, Hamt, Hpct.
    repeat split; reflexivity.
Qed.

(** An instance: the scenario of the specification. *)
Lemma price_fields_copied_witness :
  let final_price := [("value", JInt 100); ("currency", JString "SAR")] in
  let regular_price := [("value", JInt 150); ("currency", JString "SAR")] in
  let discount := [("amount_off", JInt 50); ("percent_off", JInt 33)] in
  let maximum_price := [("final_price", JObject final_price);
                        ("regular_price", JObject regular_price);
                        ("discount", JObject discount)] in
  let price_range := [("maximum_price", JObject maximum_price)] in
  let node := [("sku", JString "EH-FAN-16"); ("price_range", JObject price_range)] in
  exists r,
    ElectricHouseSpider.process_product_item (JObject node) = Ok r
    /\ lookup "final_price" r = Some (JInt 100)
    /\ lookup "regular_price" r = Some (JInt 150)
    /\ lookup "currency" r = Some (JString "SAR")
    /\ lookup "discount_amount" r = Some (JInt 50)
    /\ lookup "discount_percent" r = Some (JInt 33).
Proof.
  cbv zeta.
  apply (price_fields_copied
           [("sku", JString "EH-FAN-16");
            ("price_range", JObject
               [("maximum_price", JObject
                   [("final_price", JObject [("value", JInt 100); ("currency", JString "SAR")]);
                    ("regular_price", JObject [("value", JInt 150); ("currency", JString "SAR")]);
                    ("discount", JObject [("amount_off", JInt 50); ("percent_off", JInt 33)])])])]
           [("maximum_price", JObject
               [("final_price", JObject [("value", JInt 100); ("currency", JString "SAR")]);
                ("regular_price", JObject [("value", JInt 150); ("currency", JString "SAR")]);
                ("discount", JObject [("amount_off", JInt 50); ("percent_off", JInt 33)])])]
           [("final_price", JObject [("value", JInt 100); ("currency", JString "SAR")]);
            ("regular_price", JObject [("value", JInt 150); ("currency", JString "SAR")]);
            ("discount", JObject [("amount_off", JInt 50); ("percent_off", JInt 33)])]
           [("value", JInt 100); ("currency", JString "SAR")]
           [("value", JInt 150); ("currency", JString "SAR")]
           [("amount_off", JInt 50); ("percent_off", JInt 33)]);
    reflexivity.
Defined.

(** C8 (the code at the failing input). A node whose price block is the one
    of the scenario (100 and 150 "SAR", 50 off, 33 percent) and whose
    [small_image] is null: the normalizer raises [AttributeError] and no
    record, hence no price field, is produced. *)
Theorem priced_node_with_null_image_raises :
  ElectricHouseSpider.process_product_item
    (JObject
       [("sku", JString "EH-FAN-16");
        ("price_range", JObject
           [("maximum_price", JObject
               [("final_price", JObject [("value", JInt 100); ("currency", JString "SAR")]);
                ("regular_price", JObject [("value", JInt 150); ("currency", JString "SAR")]);
                ("discount", JObject [("amount_off", JInt 50); ("percent_off", JInt 33)])])]);
        ("small_image", JNull)])
  = Exc AttributeError.
Proof. reflexivity. Qed.

(** C9. Every record the normalizer returns has exactly the fourteen
    documented field names, each once and in the documented order, and its
    [source_site] is the constant "electric-house". *)
Theorem record_has_documented_fields (item : json) (r : dict) :
  ElectricHouseSpider.process_product_item item = Ok r ->
  keys r = record_fields
  /\ List.length r = 14%nat
  /\ NoDup (keys r)
  /\ lookup "source_site" r = Some (JString "electric-house").
Proof.
  intros H.
  destruct item as [| | | | | |d]; try discriminate H.
  assert (W : well_nested d = true)
    by (apply normalizes_iff_well_nested; exists r; exact H).
  rewrite (process_product_item_well_nested d W) in H.
  injection H as <-. cbn [keys map fst List.length].
  repeat split; try reflexivity.
  unfold record_fields.
  repeat (constructor; [cbn; intuition discriminate|]). constructor.
Qed.

(** C9 (witness): the record of a node that carries nothing but a sku. *)
Lemma record_has_documented_fields_witness :
  exists r,
    ElectricHouseSpider.process_product_item (JObject [("sku", JString "EH-KET-1")]) = Ok r
    /\ keys r = record_fields
    /\ lookup "source_site" r = Some (JString "electric-house").
Proof.
  eexists. split; [reflexivity|].
  destruct (record_has_documented_fields
              (JObject [("sku", JString "EH-KET-1")]) _ eq_refl) as (Hk & _ & _ & Hs).
  split; [exact Hk|exact Hs].
Defined.

(* ===================================================================== *)
(** ** A category response without a usable category list *)
(* ===================================================================== *)

(** The value at [data.categoryList] of a decoded body, when the path is
    there. *)
Definition category_list_of (payload : json) : option json :=
  match payload with
  | JObject d =>
      match lookup "data" d with
      | Some (JObject dd) => lookup "categoryList" dd
      | _ => None
      end
  | _ => None
  end.

(** C6, as the claim states it. The response is malformed: [json.loads]
    does not parse its body, or the decoded value has no
    [data.categoryList]. *)
Definition malformed (r : Response) : Prop :=
  match body r with
  | Decoded payload => category_list_of payload = None
  | _ => True
  end.

(** Resolution ends normally, with no scrape target and an error logged. *)
Definition resolves_to_nothing_with_error (r : Response) : Prop :=
  let g := ElectricHouseSpider.parse_categories r in
  snd g = Finished
  /\ Engine.requests_of (fst g) = []
  /\ exists m, In (Log ERROR m) (fst g).

(** C6 (counterexample). The body [{}] is resolved to nothing without any
    error being logged; on the body [{"data": null}] the callback raises
    [AttributeError]; on a body that is no Unicode text it raises the
    [UnicodeDecodeError] of [json.loads], with nothing logged. *)
Lemma malformed_not_always_logged_error :
  let r1 := mkResponse ElectricHouseSpider.api_url (Decoded (JObject [])) in
  let r2 := mkResponse ElectricHouseSpider.api_url (Decoded (JObject [("data", JNull)])) in
  let r3 := mkResponse ElectricHouseSpider.api_url NotUnicode in
  (malformed r1 /\ ~ resolves_to_nothing_with_error r1)
  /\ (malformed r2 /\ ~ resolves_to_nothing_with_error r2)
  /\ ElectricHouseSpider.parse_categories r2 = ([], Raised AttributeError)
  /\ (malformed r3 /\ ~ resolves_to_nothing_with_error r3)
  /\ ElectricHouseSpider.parse_categories r3 = ([], Raised UnicodeDecodeError).
Proof.
  cbv zeta. split; [|split; [|split; [|split]]]; try reflexivity.
  - split; [reflexivity|]. intros (_ & _ & m & [Hm|[]]). discriminate Hm.
  - split; [reflexivity|]. intros (Hs & _). discriminate Hs.
  - split; [exact I|]. intros (Hs & _). discriminate Hs.
Qed.

(** C6 (amended). A body that [json.loads] rejects with [JSONDecodeError]
    (text that is not JSON) is answered by one logged error, no scrape
    target and no exception. A body that decodes to
    a dict without a [data] key, or whose [data] is a dict without a
    [categoryList] key, is answered by no scrape target and no exception,
    with the line "Found 0 root categories" logged at INFO and no error. *)
Theorem unusable_category_response (u : string) :
  ElectricHouseSpider.parse_categories (mkResponse u NotJson)
  = ([Log ERROR (FailedToDecode u)], Finished)
  /\ (forall d,
        lookup "data" d = None ->
        ElectricHouseSpider.parse_categories (mkResponse u (Decoded (JObject d)))
        = ([Log INFO (FoundRootCategories 0)], Finished))
  /\ (forall d dd,
        lookup "data" d = Some (JObject dd) ->
        lookup "categoryList" dd = None ->
        ElectricHouseSpider.parse_categories (mkResponse u (Decoded (JObject d)))
        = ([Log INFO (FoundRootCategories 0)], Finished)).
Proof.
  split; [reflexivity|]. split.
  - intros d Hd. unfold ElectricHouseSpider.parse_categories, json_loads, Py.get.
    cbn [body Gen.eval]. rewrite Hd. reflexivity.
  - intros d dd Hd Hc. unfold ElectricHouseSpider.parse_categories, json_loads, Py.get.
    cbn [body Gen.eval]. rewrite Hd. cbn [Gen.eval]. rewrite Hc. reflexivity.
Qed.

(** C6 (witness): the bodies [{}] and [{"data": {}}]. *)
Lemma unusable_category_response_witness :
  ElectricHouseSpider.parse_categories
    (mkResponse ElectricHouseSpider.api_url (Decoded (JObject [])))
  = ([Log INFO (FoundRootCategories 0)], Finished)
  /\ ElectricHouseSpider.parse_categories
       (mkResponse ElectricHouseSpider.api_url (Decoded (JObject [("data", JObject [])])))
     = ([Log INFO (FoundRootCategories 0)], Finished).
Proof.
  destruct (unusable_category_response ElectricHouseSpider.api_url) as (_ & H1 & H2).
  split.
  - exact (H1 [] eq_refl).
  - exact (H2 [("data", JObject [])] [] eq_refl eq_refl).
Defined.

(* ===================================================================== *)
(** ** The traversal on any decoded value *)
(* ===================================================================== *)

(** Induction on a decoded value with the hypothesis on every element of a
    list and on every value of a dict. *)
Section JsonInduction.
Variable P : json -> Prop.
Hypothesis on_null : P JNull.
Hypothesis on_bool : forall b, P (JBool b).
Hypothesis on_int : forall n, P (JInt n).
Hypothesis on_float : forall f, P (JFloat f).
Hypothesis on_string : forall s, P (JString s).
Hypothesis on_array : forall l, Forall P l -> P (JArray l).
Hypothesis on_object : forall d, Forall (fun kv => P (snd kv)) d -> P (JObject d).

Fixpoint json_nested_ind (j : json) : P j :=
  match j with
  | JNull => on_null
  | JBool b => on_bool b
  | JInt n => on_int n
  | JFloat f => on_float f
  | JString s => on_string s
  | JArray l =>
      on_array l
        ((fix elements (l : list json) : Forall P l :=
            match l with
            | [] => Forall_nil P
            | x :: rest => Forall_cons x (json_nested_ind x) (elements rest)
            end) l)
  | JObject d =>
      on_object d
        ((fix values (d : dict) : Forall (fun kv => P (snd kv)) d :=
            match d with
            | [] => Forall_nil _
            | kv :: rest => Forall_cons kv (json_nested_ind (snd kv)) (values rest)
            end) d)
  end.
End JsonInduction.

(** The event starts the scrape of a category: a request for page 1 whose
    uid passed the guard [if uid:]. *)
Definition starts_scrape (e : event) : Prop :=
  exists uid, e = Request uid 1 /\ Py.truthy uid = true.

(** The generator yielded nothing but scrape starts, and ended normally or
    on an [AttributeError] or a [TypeError]. *)
Definition only_starts_scrapes (g : gen) : Prop :=
  Forall starts_scrape (fst g)
  /\ (snd g = Finished \/ snd g = Raised AttributeError \/ snd g = Raised TypeError).

Section TraversalInvariant.

Import Gen ElectricHouseSpider.

Lemma for_each_app {A : Type} (body : A -> gen) (l1 l2 : list A) :
  for_each body (l1 ++ l2) = seq (for_each body l1) (for_each body l2).
Proof.
  induction l1 as [|x l1 IH].
  - cbn. destruct (for_each body l2). reflexivity.
  - cbn [app]. rewrite !for_each_cons, IH.
    destruct (body x) as [e1 [|x1]]; [|reflexivity].
    destruct (for_each body l1) as [e2 [|x2]]; cbn; [|reflexivity].
    now rewrite app_assoc.
Qed.

Lemma only_starts_done : only_starts_scrapes done.
Proof. split; [constructor|now left]. Qed.

Lemma only_starts_seq (a b : gen) :
  only_starts_scrapes a -> only_starts_scrapes b -> only_starts_scrapes (seq a b).
Proof.
  destruct a as [ea [|xa]], b as [eb ob]; cbn; intros [Ha Oa] [Hb Ob]; split; cbn in *;
    try assumption.
  apply Forall_app. split; assumption.
Qed.

Lemma only_starts_for_each {A : Type} (body : A -> gen) (l : list A) :
  Forall (fun x => only_starts_scrapes (body x)) l ->
  only_starts_scrapes (for_each body l).
Proof.
  induction 1 as [|x l Hx _ IH]; [apply only_starts_done|].
  rewrite for_each_cons. apply only_starts_seq; assumption.
Qed.

Lemma only_starts_scrape_leaf (cat : json) : only_starts_scrapes (scrape_leaf cat).
Proof.
  unfold scrape_leaf, Py.get.
  destruct cat; try (split; [constructor|cbn; tauto]).
  cbn [eval].
  assert (G : forall uid, only_starts_scrapes
                (if Py.truthy uid then fetch_products uid 1 else done)).
  { intros uid. destruct (Py.truthy uid) eqn:T; [|apply only_starts_done].
    split; [|now left]. repeat constructor. exists uid. now split. }
  destruct (lookup "uid" fields); apply G.
Qed.

Lemma only_starts_visit (self : json -> gen) (cat : json) :
  (forall d v, cat = JObject d -> lookup "children" d = Some v ->
               only_starts_scrapes (self v)) ->
  only_starts_scrapes (visit_category self cat).
Proof.
  intros Hself.
  destruct cat as [| | | | | |d]; try (split; [constructor|cbn; tauto]).
  unfold visit_category. rewrite lookup_with_lookup.
  destruct (lookup "children" d) as [c|] eqn:Hc; cbn [option_map];
    [|apply only_starts_scrape_leaf].
  destruct (Py.truthy c); [|apply only_starts_scrape_leaf].
  destruct (Py.len c) as [n|e] eqn:Hn; cbn [eval].
  - destruct (0 <? n)%nat; [exact (Hself d c eq_refl Hc)|apply only_starts_scrape_leaf].
  - split; [constructor|].
    destruct c; cbn in Hn; try discriminate Hn; injection Hn as <-; cbn; tauto.
Qed.

Lemma lookup_in_values (P : json -> Prop) (d : dict) (k : string) (v : json) :
  Forall (fun kv => P (snd kv)) d -> lookup k d = Some v -> P v.
Proof.
  induction 1 as [|[k' v'] d Hkv _ IH]; cbn; [discriminate|].
  destruct (String.eqb k k'); [|exact IH].
  intros [= <-]. exact Hkv.
Qed.

Lemma only_starts_strings (l : list string) :
  only_starts_scrapes (for_each (visit_category (fun _ => done)) (map JString l)).
Proof.
  apply only_starts_for_each, Forall_forall. intros x _.
  apply only_starts_visit. intros. apply only_starts_done.
Qed.

(** The invariant, together with its instance on the children of a dict:
    what the loop body needs of the element it visits. *)
Lemma traverse_categories_invariant (cats : json) :
  only_starts_scrapes (traverse_categories cats)
  /\ (forall d v, cats = JObject d -> lookup "children" d = Some v ->
                  only_starts_scrapes (traverse_categories v)).
Proof.
  induction cats as [| | | |s|l IH|d IH] using json_nested_ind;
    try (split; [split; [constructor|cbn; tauto]|discriminate]).
  - split; [|discriminate].
    cbn [traverse_categories Py.iter eval].
    apply only_starts_for_each, Forall_forall. intros x _.
    apply only_starts_visit. intros. apply only_starts_done.
  - split; [|discriminate].
    rewrite traverse_categories_array.
    apply only_starts_for_each.
    apply Forall_impl with (2 := IH). clear IH. intros cat [_ Hcat].
    apply only_starts_visit. exact Hcat.
  - split.
    + cbn [traverse_categories Py.iter eval]. apply only_starts_strings.
    + intros d' v [= <-] Hv.
      apply (Forall_impl (fun kv => only_starts_scrapes (traverse_categories (snd kv))))
        in IH; [|intros kv H; exact (proj1 H)].
      exact (lookup_in_values (fun j => only_starts_scrapes (traverse_categories j))
               d "children" v IH Hv).
Qed.

(** X1. Whatever value it is given, [traverse_categories] yields nothing
    but requests for page 1 of a truthy uid, and it ends normally or on an
    [AttributeError] or a [TypeError]. *)
Theorem traverse_categories_only_starts_scrapes (cats : json) :
  only_starts_scrapes (traverse_categories cats).
Proof. exact (proj1 (traverse_categories_invariant cats)). Qed.

(** X2. [traverse_categories] handles the siblings one after the other:
    the traversal of [l1 ++ l2] is the traversal of [l1] followed, if that
    did not raise, by the traversal of [l2]. *)
Theorem traverse_categories_app (l1 l2 : list json) :
  traverse_categories (JArray (l1 ++ l2))
  = seq (traverse_categories (JArray l1)) (traverse_categories (JArray l2)).
Proof. rewrite !traverse_categories_array. apply for_each_app. Qed.

(** X3. An exception below a category is not confined to it: when the
    traversal of a node's non-empty children list raises, the traversal of
    the list the node stands in yields what was yielded up to there and
    raises the same exception, and the categories after the node are not
    visited. *)
Theorem exception_below_aborts_traversal (d : dict) (c : json) (cs rest : list json)
        (evs : list event) (e : exn) :
  lookup "children" d = Some (JArray (c :: cs)) ->
  traverse_categories (JArray (c :: cs)) = (evs, Raised e) ->
  traverse_categories (JArray (JObject d :: rest)) = (evs, Raised e).
Proof.
  intros Hc Hbelow.
  rewrite traverse_categories_array, for_each_cons.
  unfold visit_category. rewrite lookup_with_lookup, Hc.
  cbn [option_map Py.truthy Py.len eval List.length Nat.ltb Nat.leb].
  rewrite Hbelow. reflexivity.
Qed.

(** X3 (witness): the second child of "Kitchen" is a string, not a dict;
    "Fans", which follows "Kitchen", is never requested. *)
Lemma exception_below_aborts_traversal_witness :
  let kettles := JObject [("uid", JString "Mg=="); ("name", JString "Kettles")] in
  let kitchen := [("uid", JString "MQ=="); ("children", JArray [kettles; JString "Mw=="])] in
  let fans := JObject [("uid", JString "NA=="); ("name", JString "Fans")] in
  traverse_categories (JArray [JObject kitchen; fans])
  = ([Request (JString "Mg==") 1], Raised AttributeError).
Proof.
  cbv zeta.
  apply (exception_below_aborts_traversal
           [("uid", JString "MQ==");
            ("children", JArray [JObject [("uid", JString "Mg=="); ("name", JString "Kettles")];
                                 JString "Mw=="])]
           (JObject [("uid", JString "Mg=="); ("name", JString "Kettles")])
           [JString "Mw=="]
           [JObject [("uid", JString "NA=="); ("name", JString "Fans")]]);
    reflexivity.
Defined.

(** X4. A children entry that is not a list: a falsy one (false, 0, 0.0,
    the empty str, the empty dict) makes the node a leaf; a non-empty str
    or dict is iterated and raises [AttributeError] on its first element;
    a truthy bool or number raises [TypeError] in [len]. In both failing
    cases nothing is yielded for the node or for what follows it. *)
Theorem children_not_a_list (d : dict) (c : json) (rest : list json) :
  lookup "children" d = Some c ->
  is_child_list (Some c) = false ->
  traverse_categories (JArray (JObject d :: rest))
  = if Py.truthy c
    then match c with
         | JString _ | JObject _ => ([], Raised AttributeError)
         | _ => ([], Raised TypeError)
         end
    else seq (scrape_leaf (JObject d)) (traverse_categories (JArray rest)).
Proof.
  intros Hc Hl.
  rewrite !traverse_categories_array, for_each_cons.
  unfold visit_category at 1. rewrite lookup_with_lookup, Hc. cbn [option_map].
  destruct c as [|b|n|f|s|l|d']; try discriminate Hl.
  - destruct b; reflexivity.
  - cbn [Py.truthy]. destruct (n =? 0); reflexivity.
  - destruct f; reflexivity.
  - destruct s as [|a s]; reflexivity.
  - destruct d' as [|[k v] d']; reflexivity.
Qed.

(** X4 (witness): [children: 3]. *)
Lemma children_not_a_list_witness :
  traverse_categories
    (JArray [JObject [("uid", JString "MQ=="); ("children", JInt 3)];
             JObject [("uid", JString "NA==")]])
  = ([], Raised TypeError).
Proof.
  exact (children_not_a_list [("uid", JString "MQ=="); ("children", JInt 3)] (JInt 3)
           [JObject [("uid", JString "NA==")]] eq_refl eq_refl).
Defined.

End TraversalInvariant.

(* ===================================================================== *)
(** ** The callbacks on any response *)
(* ===================================================================== *)

(** The record has the documented field names and the site tag. *)
Definition documented (record : dict) : Prop :=
  keys record = record_fields
  /\ lookup "source_site" record = Some (JString "electric-house").

Definition is_log (e : event) : Prop := exists lvl msg, e = Log lvl msg.

(** What [parse_products] can produce once [json.loads] has not failed on
    the encoding or on an integer: log records, then records of products,
    then at most the request for the next page of the same category, which
    is there only if the callback ended normally. *)
Definition page_shape (uid : json) (page : Z) (g : gen) : Prop :=
  exists logs records next,
    fst g = logs ++ map Item records ++ next
    /\ Forall is_log logs
    /\ Forall documented records
    /\ (next = [] \/ (next = [Request uid (page + 1)] /\ snd g = Finished))
    /\ (snd g = Finished \/ snd g = Raised AttributeError \/ snd g = Raised TypeError).

Section CallbackShapes.

Import Gen ElectricHouseSpider Engine.

Lemma try_except_other (inner handler : gen) :
  snd inner <> Raised JSONDecodeError ->
  try_except_JSONDecodeError inner handler = inner.
Proof.
  destruct inner as [evs [|[]]]; cbn; intros H; try reflexivity.
  now contradiction H.
Qed.

Lemma get_raises_AttributeError (o : json) (k : string) (default : json) (e : exn) :
  Py.get o k default = Exc e -> e = AttributeError.
Proof.
  destruct o; cbn; try congruence. destruct (lookup k fields); discriminate.
Qed.

Lemma len_raises_TypeError (v : json) (e : exn) : Py.len v = Exc e -> e = TypeError.
Proof. destruct v; cbn; congruence. Qed.

Lemma iter_raises_TypeError (v : json) (e : exn) : Py.iter v = Exc e -> e = TypeError.
Proof. destruct v; cbn; congruence. Qed.

Lemma contains_raises_TypeError (k : string) (v : json) (e : exn) :
  Py.contains k v = Exc e -> e = TypeError.
Proof. destruct v; cbn; congruence. Qed.

Lemma process_product_item_documented (item : json) (r : dict) :
  process_product_item item = Ok r -> documented r.
Proof.
  intros H. destruct item as [| | | | | |d]; try discriminate H.
  assert (W : well_nested d = true)
    by (apply normalizes_iff_well_nested; exists r; exact H).
  rewrite (process_product_item_well_nested d W) in H.
  injection H as <-. split; reflexivity.
Qed.

Lemma process_product_item_raises (item : json) (e : exn) :
  process_product_item item = Exc e -> e = AttributeError.
Proof.
  intros H. destruct item as [| | | | | |d]; try (cbn in H; congruence).
  destruct (well_nested d) eqn:W.
  - rewrite (process_product_item_well_nested d W) in H. discriminate H.
  - rewrite (process_product_item_ill_nested d W) in H. congruence.
Qed.

(** The loop over the items of a page, whatever they are. *)
Lemma items_loop_shape (elements : list json) :
  let g := for_each (fun item => record <~ process_product_item item ;; emit (Item record))
                    elements in
  exists records,
    fst g = map Item records
    /\ Forall documented records
    /\ (snd g = Finished \/ snd g = Raised AttributeError).
Proof.
  induction elements as [|item elements (records & Hev & Hdoc & Hout)]; cbn zeta.
  - exists []. repeat split; [constructor|now left].
  - rewrite for_each_cons.
    destruct (process_product_item item) as [r|e] eqn:Hr; cbn [eval].
    + exists (r :: records). cbn zeta in *.
      destruct (for_each _ elements) as [evs out]. cbn in *. subst evs.
      repeat split; [|exact Hout].
      constructor; [exact (process_product_item_documented _ _ Hr)|exact Hdoc].
    + exists []. rewrite (process_product_item_raises _ _ Hr).
      repeat split; [constructor|now right].
Qed.

Lemma page_shape_raise (uid : json) (page : Z) (e : exn) :
  e = AttributeError \/ e = TypeError -> page_shape uid page ([], Raised e).
Proof.
  intros He. exists [], [], []. cbn.
  split; [reflexivity|]. split; [constructor|]. split; [constructor|].
  split; [now left|]. destruct He as [-> | ->]; tauto.
Qed.

Lemma page_shape_try (uid : json) (page : Z) (inner handler : gen) :
  page_shape uid page inner ->
  page_shape uid page (try_except_JSONDecodeError inner handler).
Proof.
  intros S. rewrite try_except_other; [exact S|].
  destruct S as (_ & _ & _ & _ & _ & _ & _ & [H|[H|H]]); rewrite H; discriminate.
Qed.

(** The last statement of the callback: the test [page < total_pages]. *)
Lemma pagination_shape (uid : json) (page : Z) (total_pages : json) :
  let g := (more <~ Py.lt page total_pages ;;
            if more then fetch_products uid (page + 1) else done) in
  (fst g = [] /\ (snd g = Finished \/ snd g = Raised TypeError))
  \/ g = ([Request uid (page + 1)], Finished).
Proof.
  cbn zeta. destruct (Py.lt page total_pages) as [[|]|e] eqn:Hlt; cbn.
  - now right.
  - left. split; [reflexivity|now left].
  - left. rewrite (lt_raises_TypeError _ _ _ Hlt). split; [reflexivity|now right].
Qed.

(** Whatever the response, [parse_products] either passes on the
    [UnicodeDecodeError] or the [ValueError] of [json.loads], with nothing
    logged or yielded, or produces a page shape. *)
Lemma parse_products_shape (r : Response) (uid : json) (page : Z) :
  (body r = NotUnicode
   /\ parse_products r uid page = ([], Raised UnicodeDecodeError))
  \/ (body r = IntegerTooLong
      /\ parse_products r uid page = ([], Raised ValueError))
  \/ ((exists data, body r = Decoded data) \/ body r = NotJson)
     /\ page_shape uid page (parse_products r uid page).
Proof.
  unfold parse_products, json_loads.
  destruct (body r) as [data| | |] eqn:Hbody; cbn [eval];
    [| | left; now split | right; left; now split].
  2:{ right. right. split; [now right|].
      exists [Log ERROR (FailedToDecode (url r))], [], []. cbn.
      split; [reflexivity|]. split; [repeat constructor; now eexists _, _|].
      split; [constructor|]. split; now left. }
  right. right. split; [left; now exists data|].
  apply page_shape_try.
  destruct (Py.contains "errors" data) as [[|]|e] eqn:Hin; cbn [eval].
  - (* the errors branch *)
    destruct data as [| | | | |l|d]; try discriminate Hin; cbn [Py.getitem].
    + apply page_shape_raise. now right.
    + apply page_shape_raise. now right.
    + cbn in Hin. destruct (lookup "errors" d) as [errors|]; [|discriminate Hin].
      exists [Log ERROR (GraphQLErrors uid page errors)], [], []. cbn.
      split; [reflexivity|]. split; [repeat constructor; now eexists _, _|].
      split; [constructor|]. split; now left.
  - (* the page branch *)
    destruct (Py.get data "data" Py.empty_dict) as [d|e] eqn:H1; cbn [eval];
      [|apply page_shape_raise; left; exact (get_raises_AttributeError _ _ _ _ H1)].
    destruct (Py.get d "products" Py.empty_dict) as [products_data|e] eqn:H2; cbn [eval];
      [|apply page_shape_raise; left; exact (get_raises_AttributeError _ _ _ _ H2)].
    destruct (Py.get products_data "items" Py.empty_list) as [items|e] eqn:H3; cbn [eval];
      [|apply page_shape_raise; left; exact (get_raises_AttributeError _ _ _ _ H3)].
    destruct (Py.get products_data "page_info" Py.empty_dict) as [page_info|e] eqn:H4;
      cbn [eval];
      [|apply page_shape_raise; left; exact (get_raises_AttributeError _ _ _ _ H4)].
    destruct (Py.get page_info "total_pages" (JInt 1)) as [total_pages|e] eqn:H5;
      cbn [eval];
      [|apply page_shape_raise; left; exact (get_raises_AttributeError _ _ _ _ H5)].
    destruct (Py.len items) as [n|e] eqn:H6; cbn [eval];
      [|apply page_shape_raise; right; exact (len_raises_TypeError _ _ H6)].
    destruct (Py.iter items) as [elements|e] eqn:H7; cbn [eval].
    2:{ rewrite (iter_raises_TypeError _ _ H7).
        exists [Log INFO (Scraped n uid page total_pages)], [], []. cbn.
        split; [reflexivity|]. split; [repeat constructor; now eexists _, _|].
        split; [constructor|]. split; [now left|tauto]. }
    destruct (items_loop_shape elements) as (records & Hev & Hdoc & Hout).
    cbn zeta in Hev, Hout.
    destruct (for_each _ elements) as [evs out]. cbn [fst snd] in Hev, Hout. subst evs.
    exists [Log INFO (Scraped n uid page total_pages)], records.
    destruct Hout as [-> | ->].
    + destruct (pagination_shape uid page total_pages) as [[Hf Ho]|Hg];
        cbn zeta in *.
      * destruct (eval (Py.lt page total_pages) _) as [tl o]. cbn [fst snd] in Hf, Ho.
        subst tl. exists []. cbn. rewrite !app_nil_r.
        split; [reflexivity|]. split; [repeat constructor; now eexists _, _|].
        split; [exact Hdoc|]. split; [now left|tauto].
      * rewrite Hg. exists [Request uid (page + 1)]. cbn.
        split; [reflexivity|]. split; [repeat constructor; now eexists _, _|].
        split; [exact Hdoc|]. split; [right; now split|now left].
    + exists []. cbn. rewrite !app_nil_r.
      split; [reflexivity|]. split; [repeat constructor; now eexists _, _|].
      split; [exact Hdoc|]. split; [now left|tauto].
  - apply page_shape_raise. right. exact (contains_raises_TypeError _ _ _ Hin).
Qed.

Lemma requests_of_logs (logs : list event) :
  Forall is_log logs -> requests_of logs = [].
Proof.
  induction 1 as [|e logs (lvl & msg & ->) _ IH]; [reflexivity|exact IH].
Qed.

Lemma items_of_logs (logs : list event) :
  Forall is_log logs -> items_of logs = [].
Proof.
  induction 1 as [|e logs (lvl & msg & ->) _ IH]; [reflexivity|exact IH].
Qed.

(** The requests and the items of a page shape. *)
Lemma page_shape_requests (uid : json) (page : Z) (g : gen) :
  page_shape uid page g ->
  (requests_of (fst g) = [] \/ requests_of (fst g) = [(uid, page + 1)])
  /\ Forall documented (items_of (fst g)).
Proof.
  intros (logs & records & next & -> & Hlogs & Hdoc & Hnext & _).
  rewrite !requests_of_app, !items_of_app, requests_of_logs, items_of_logs,
    requests_of_items, items_of_items by assumption.
  destruct Hnext as [-> | [-> _]]; cbn; rewrite ?app_nil_r; split; auto.
Qed.

(** What [parse_products] yields on any response. *)
Lemma parse_products_yields (r : Response) (uid : json) (page : Z) :
  (requests_of (fst (parse_products r uid page)) = []
   \/ requests_of (fst (parse_products r uid page)) = [(uid, page + 1)])
  /\ Forall documented (items_of (fst (parse_products r uid page))).
Proof.
  destruct (parse_products_shape r uid page) as [[_ H]|[[_ H]|[_ S]]].
  - rewrite H. split; [now left|constructor].
  - rewrite H. split; [now left|constructor].
  - exact (page_shape_requests uid page _ S).
Qed.

(** X5. Pagination is linear whatever the server answers: a call of
    [parse_products] yields at most one request; if it yields one, it is
    for the same category and for page + 1, it is the last thing yielded
    and the callback ends normally. A callback that raises has requested
    nothing. *)
Theorem parse_products_requests_next_page_only (r : Response) (uid : json) (page : Z) :
  let g := parse_products r uid page in
  (requests_of (fst g) = [] )
  \/ (requests_of (fst g) = [(uid, page + 1)]
      /\ snd g = Finished
      /\ exists before, fst g = before ++ [Request uid (page + 1)]
                        /\ requests_of before = []).
Proof.
  cbn zeta.
  destruct (parse_products_shape r uid page)
    as [[_ H]|[[_ H]|[_ (logs & records & next & Hev & Hlogs & Hdoc & Hnext & _)]]];
    [rewrite H; now left|rewrite H; now left|].
  rewrite Hev.
  rewrite !requests_of_app, requests_of_logs, requests_of_items by assumption.
  destruct Hnext as [-> | [-> Hfin]]; [now left|right].
  split; [reflexivity|]. split; [exact Hfin|].
  exists (logs ++ map Item records). split; [now rewrite app_assoc|].
  now rewrite requests_of_app, requests_of_logs, requests_of_items.
Qed.

(** X6. Every item that [parse_products] yields, on any response, is a
    record with exactly the fourteen documented field names and
    [source_site] "electric-house". *)
Theorem parse_products_items_documented (r : Response) (uid : json) (page : Z)
        (record : dict) :
  In (Item record) (fst (parse_products r uid page)) ->
  keys record = record_fields
  /\ lookup "source_site" record = Some (JString "electric-house").
Proof.
  intros Hin.
  destruct (parse_products_yields r uid page) as [_ Hdoc].
  rewrite Forall_forall in Hdoc. apply Hdoc.
  unfold items_of. apply in_flat_map. exists (Item record). split; [exact Hin|now left].
Qed.

(** The ways [parse_categories] can go. *)
Lemma parse_categories_cases (r : Response) :
  let g := parse_categories r in
  (body r = NotJson /\ g = ([Log ERROR (FailedToDecode (url r))], Finished))
  \/ (fst g = []
      /\ (((exists data, body r = Decoded data)
           /\ (snd g = Raised AttributeError \/ snd g = Raised TypeError))
          \/ (body r = NotUnicode /\ snd g = Raised UnicodeDecodeError)
          \/ (body r = IntegerTooLong /\ snd g = Raised ValueError)))
  \/ (exists n starts,
        (exists data, body r = Decoded data)
        /\ fst g = Log INFO (FoundRootCategories n) :: starts
        /\ Forall starts_scrape starts
        /\ (snd g = Finished \/ snd g = Raised AttributeError
            \/ snd g = Raised TypeError)).
Proof.
  cbn zeta. unfold parse_categories, json_loads.
  destruct (body r) as [data| | |]; cbn [eval];
    [|left; split; reflexivity
     |right; left; split; [reflexivity|right; left; now split]
     |right; left; split; [reflexivity|right; right; now split]].
  assert (Hd : exists data', Decoded data = Decoded data') by now exists data.
  right.
  destruct (Py.get data "data" Py.empty_dict) as [d|e] eqn:H1; cbn [eval].
  2:{ rewrite (get_raises_AttributeError _ _ _ _ H1). left. cbn. tauto. }
  destruct (Py.get d "categoryList" Py.empty_list) as [categories|e] eqn:H2; cbn [eval].
  2:{ rewrite (get_raises_AttributeError _ _ _ _ H2). left. cbn. tauto. }
  destruct (Py.len categories) as [n|e] eqn:H3; cbn [eval].
  2:{ rewrite (len_raises_TypeError _ _ H3). left. cbn. tauto. }
  right. exists n.
  destruct (traverse_categories_invariant categories) as [[Hev Hout] _].
  destruct (traverse_categories categories) as [starts out].
  cbn [fst snd] in Hev, Hout. exists starts.
  destruct Hout as [-> | [-> | ->]]; cbn; tauto.
Qed.



End CallbackShapes.

(** X6 (witness): the record of the only item of a page. *)
Lemma parse_products_items_documented_witness :
  let node := JObject [("sku", JString "EH-KET-1")] in
  exists record,
    ElectricHouseSpider.process_product_item node = Ok record
    /\ In (Item record)
          (fst (ElectricHouseSpider.parse_products (page_response [node] 1 (JInt 1))
                  (JString "NDE=") 1))
    /\ keys record = record_fields.
Proof.
  cbv zeta. eexists. split; [reflexivity|].
  assert (Hin : In (Item
                     [("id", JNull); ("uid", JNull); ("sku", JString "EH-KET-1");
                      ("name", JNull); ("url_key", JNull); ("stock_status", JNull);
                      ("final_price", JNull); ("regular_price", JNull);
                      ("currency", JNull); ("discount_amount", JNull);
                      ("discount_percent", JNull); ("image_url", JNull);
                      ("description", JNull);
                      ("source_site", JString "electric-house")])
                  (fst (ElectricHouseSpider.parse_products
                          (page_response [JObject [("sku", JString "EH-KET-1")]] 1 (JInt 1))
                          (JString "NDE=") 1)))
    by (cbn; right; left; reflexivity).
  split; [exact Hin|].
  exact (proj1 (parse_products_items_documented _ _ _ _ Hin)).
Defined.

(* ===================================================================== *)
(** ** One category against any server *)
(* ===================================================================== *)

Section AnyServer.

Import Gen ElectricHouseSpider Engine.

Variable server : Server.
Variable uid : json.

(** From the request for page [p] on: the pages requested afterwards are
    p + 1, p + 2, ... without a gap, and every item is documented. *)
Lemma run_consecutive_pages (fuel : nat) :
  forall (p : nat) (trace : list event),
    run fuel server [(uid, Z.of_nat p)] = Some trace ->
    exists k,
      (S k <= fuel)%nat
      /\ requests_of trace = map (pair uid) (page_numbers (S p) k)
      /\ Forall documented (items_of trace).
Proof.
  induction fuel as [|fuel IH]; intros p trace Hrun; [discriminate Hrun|].
  cbn [run] in Hrun.
  destruct (parse_products_yields (server uid (Z.of_nat p)) uid (Z.of_nat p))
    as [[Hreq|Hreq] Hdoc];
    rewrite Hreq in Hrun; cbn [app] in Hrun.
  - replace (run fuel server []) with (Some (@nil event)) in Hrun
      by (destruct fuel; reflexivity).
    cbn [option_map] in Hrun. injection Hrun as <-. exists 0%nat.
    rewrite app_nil_r. split; [lia|]. split; [exact Hreq|exact Hdoc].
  - replace (Z.of_nat p + 1) with (Z.of_nat (S p)) in * by lia.
    destruct (run fuel server [(uid, Z.of_nat (S p))]) as [rest|] eqn:Hrest;
      [|discriminate Hrun].
    cbn [option_map] in Hrun. injection Hrun as <-.
    destruct (IH (S p) rest Hrest) as (k & Hk & Hreqs & Hdocs).
    exists (S k). split; [lia|].
    rewrite requests_of_app, items_of_app, Hreq, Hreqs.
    split; [reflexivity|]. apply Forall_app. split; assumption.
Qed.

(** X9. Whatever the server answers, a category's crawl that comes to an
    end has requested the pages 1, 2, ..., k of that category, in this
    order and each once, for some k >= 1 (one callback per page), and every
    item it has yielded has the documented fields. *)
Theorem crawl_category_consecutive_pages (fuel : nat) (trace : list event) :
  crawl_category fuel server uid = Some trace ->
  exists k,
    (1 <= k <= fuel)%nat
    /\ requests_of trace = map (pair uid) (page_numbers 1 k)
    /\ Forall documented (items_of trace).
Proof.
  unfold crawl_category.
  cbn [fetch_products emit fst requests_of flat_map app].
  change 1 with (Z.of_nat 1).
  destruct (run fuel server [(uid, Z.of_nat 1)]) as [rest|] eqn:Hrest; [|discriminate].
  cbn [option_map]. intros [= <-].
  destruct (run_consecutive_pages fuel 1 rest Hrest) as (k & Hk & Hreqs & Hdocs).
  exists (S k). split; [lia|]. split; [|exact Hdocs].
  cbn [requests_of flat_map app]. fold (requests_of rest). rewrite Hreqs. reflexivity.
Qed.

End AnyServer.

(** X9 (witness): a server whose bodies never decode. *)
Lemma crawl_category_consecutive_pages_witness :
  let server := fun (_ : json) (_ : Z) => mkResponse ElectricHouseSpider.api_url NotJson in
  Engine.crawl_category 3 server (JString "NDE=")
  = Some [Request (JString "NDE=") 1;
          Log ERROR (FailedToDecode ElectricHouseSpider.api_url)]
  /\ exists k,
      (1 <= k <= 3)%nat
      /\ Engine.requests_of [Request (JString "NDE=") 1;
                             Log ERROR (FailedToDecode ElectricHouseSpider.api_url)]
         = map (pair (JString "NDE=")) (page_numbers 1 k).
Proof.
  cbv zeta. split; [reflexivity|].
  destruct (crawl_category_consecutive_pages
              (fun (_ : json) (_ : Z) => mkResponse ElectricHouseSpider.api_url NotJson)
              (JString "NDE=") 3 _ eq_refl) as (k & Hk & Hreq & _).
  exists k. split; [exact Hk|exact Hreq].
Defined.

Section EndlessPagination.

Import Gen ElectricHouseSpider Engine.

Variable server : Server.
Variable uid : json.

(** Every page, however far, reports a [total_pages] above its own number
    (and holds nodes that normalize). *)
Hypothesis always_more : forall p : Z,
    1 <= p ->
    exists items n,
      reports (server uid p) items (JInt n) /\ p < n /\ Forall normalizes items.

Lemma run_endless (fuel : nat) :
  forall p : Z, 1 <= p -> run fuel server [(uid, p)] = None.
Proof.
  induction fuel as [|fuel IH]; intros p Hp; [reflexivity|].
  destruct (always_more p Hp) as (items & n & Hrep & Hlt & Hnorm).
  destruct (normalizes_all _ Hnorm) as [records Hrec].
  cbn [run]. rewrite (parse_products_page _ _ _ records uid p Hrep Hrec).
  cbn [Py.lt eval]. replace (p <? n) with true by (symmetry; apply Z.ltb_lt; lia).
  cbn [fetch_products emit seq fst snd].
  rewrite requests_of_app, requests_of_page. cbn [app requests_of flat_map].
  rewrite (IH (p + 1)) by lia. reflexivity.
Qed.

(** X10. Nothing but the server's [total_pages] bounds the pagination:
    against a server whose every page reports more pages than its own
    number, the crawl of the category is not over after any number of
    callbacks. *)
Theorem pagination_has_no_page_limit (fuel : nat) :
  crawl_category fuel server uid = None.
Proof.
  unfold crawl_category.
  cbn [fetch_products emit fst requests_of flat_map app].
  rewrite run_endless by lia. reflexivity.
Qed.

End EndlessPagination.

(** X10 (witness): every page p is empty and reports p + 1 pages. *)
Lemma pagination_has_no_page_limit_witness :
  Engine.crawl_category 50 (fun (_ : json) (p : Z) => page_response [] p (JInt (p + 1)))
                        (JString "NDE=")
  = None.
Proof.
  apply (pagination_has_no_page_limit
           (fun (_ : json) (p : Z) => page_response [] p (JInt (p + 1)))
           (JString "NDE=")).
  intros p Hp. exists [], (p + 1).
  split; [apply page_response_reports|]. split; [lia|constructor].
Defined.

Section FirstEndingPage.

Import Gen ElectricHouseSpider Engine.

Variable server : Server.
Variable uid : json.
Variable k : nat.
Variable pages : Z -> list json.
Variable total_pages : Z -> Z.

(** Each page before page [k] carries nodes that normalize and reports, on
    its own account, a [total_pages] above its number ... *)
Hypothesis more_before : forall p : nat,
    (1 <= p < k)%nat ->
    reports (server uid (Z.of_nat p)) (pages (Z.of_nat p))
            (JInt (total_pages (Z.of_nat p)))
    /\ Z.of_nat p < total_pages (Z.of_nat p)
    /\ Forall normalizes (pages (Z.of_nat p)).

(** ... and the callback on page [k] yields no request, for any reason. *)
Hypothesis ends_at_k :
  requests_of (fst (parse_products (server uid (Z.of_nat k)) uid (Z.of_nat k))) = [].



End FirstEndingPage.


(* ===================================================================== *)
(** ** Product pages with something missing or wrong *)
(* ===================================================================== *)

Section PageEdges.

Import Gen ElectricHouseSpider Engine.



(** X13. A decoded dict that has neither [errors] nor [data], or whose
    [data] is a dict without [products], is taken for an empty last page:
    one INFO line "Scraped 0 ... Page page/1", no item, no request, no
    error logged, no exception (for any page number from 1 on). *)
Theorem missing_products_is_empty_last_page (r : Response) (d : dict)
        (uid : json) (page : Z) :
  body r = Decoded (JObject d) ->
  lookup "errors" d = None ->
  (lookup "data" d = None
   \/ exists dd, lookup "data" d = Some (JObject dd) /\ lookup "products" dd = None) ->
  1 <= page ->
  parse_products r uid page = ([Log INFO (Scraped 0 uid page (JInt 1))], Finished).
Proof.
  intros Hb He Hd Hpage.
  unfold parse_products, json_loads. rewrite Hb. cbn [eval].
  unfold Py.contains. rewrite He. cbn [eval].
  destruct Hd as [Hd|(dd & Hd & Hp)];
    unfold Py.get at 1; rewrite Hd; cbn [eval Py.empty_dict];
    unfold Py.get at 1; [cbn [lookup]|rewrite Hp];
    cbn; (destruct (Z.ltb_spec page 1); [lia|]); reflexivity.
Qed.

(** X13 (witness): the body [{}] on page 3. *)
Lemma missing_products_is_empty_last_page_witness :
  parse_products (mkResponse api_url (Decoded (JObject []))) (JString "NDE=") 3
  = ([Log INFO (Scraped 0 (JString "NDE=") 3 (JInt 1))], Finished).
Proof.
  apply (missing_products_is_empty_last_page
           (mkResponse api_url (Decoded (JObject []))) []);
    [reflexivity|reflexivity|now left|lia].
Defined.



(** X15. A node on which the normalizer raises ends its page and its
    category: the records of the nodes before it have been yielded, the
    nodes after it are dropped, the callback raises [AttributeError] and
    the next page is not requested, whatever [total_pages] says. *)
Theorem bad_node_ends_page (r : Response) (before : list json) (bad : json)
        (after : list json) (tp : json) (records : list dict) (uid : json) (page : Z) :
  reports r (before ++ bad :: after) tp ->
  map process_product_item before = map Ok records ->
  ~ normalizes bad ->
  parse_products r uid page
  = (Log INFO (Scraped (List.length (before ++ bad :: after)) uid page tp)
       :: map Item records,
     Raised AttributeError).
Proof.
  intros (d & dd & pd & pi & Hb & He & Hd & Hp & Hi & Hpi & Ht) Hrec Hbad.
  assert (Hexc : process_product_item bad = Exc AttributeError).
  { destruct (process_product_item bad) as [rec|e] eqn:E.
    - contradiction Hbad. now exists rec.
    - now rewrite (process_product_item_raises _ _ E). }
  unfold parse_products, json_loads. rewrite Hb. cbn [eval].
  unfold Py.contains. rewrite He. cbn [eval].
  unfold Py.get at 1. rewrite Hd. cbn [eval].
  unfold Py.get at 1. rewrite Hp. cbn [eval].
  unfold Py.get at 1. rewrite Hi. cbn [eval].
  unfold Py.get at 1. rewrite Hpi. cbn [eval].
  unfold Py.get at 1. rewrite Ht. cbn [eval Py.len Py.iter].
  rewrite for_each_app, (yield_items _ _ Hrec), for_each_cons, Hexc.
  cbn. rewrite !app_nil_r. reflexivity.
Qed.

End PageEdges.

(** X15 (witness): page 1 of 4 holds a good node, a node with
    [description: null] and another good node. *)
Lemma bad_node_ends_page_witness :
  let good := JObject [("sku", JString "EH-KET-1")] in
  let bad := JObject [("sku", JString "EH-KET-2"); ("description", JNull)] in
  let last := JObject [("sku", JString "EH-KET-3")] in
  exists record,
    ElectricHouseSpider.process_product_item good = Ok record
    /\ ElectricHouseSpider.parse_products (page_response [good; bad; last] 1 (JInt 4))
         (JString "NDE=") 1
       = ([Log INFO (Scraped 3 (JString "NDE=") 1 (JInt 4)); Item record],
          Raised AttributeError).
Proof.
  cbv zeta. eexists. split; [reflexivity|].
  apply (bad_node_ends_page
           (page_response
              [JObject [("sku", JString "EH-KET-1")];
               JObject [("sku", JString "EH-KET-2"); ("description", JNull)];
               JObject [("sku", JString "EH-KET-3")]] 1 (JInt 4))
           [JObject [("sku", JString "EH-KET-1")]]
           (JObject [("sku", JString "EH-KET-2"); ("description", JNull)])
           [JObject [("sku", JString "EH-KET-3")]] (JInt 4) [_] (JString "NDE=") 1).
  - apply page_response_reports.
  - reflexivity.
  - intros [rec Hrec]. discriminate Hrec.
Defined.

Section BodiesAndNodes.

Import Gen ElectricHouseSpider Engine.

(** X16. A body that decodes to anything but a dict (a list, a str, a
    number, a bool, null) is not handled by either callback:
    [parse_categories] raises [AttributeError] and [parse_products] raises
    [TypeError] or [AttributeError], both before anything is logged or
    yielded. *)
Theorem body_not_a_dict_raises (r : Response) (data : json) (uid : json) (page : Z) :
  body r = Decoded data ->
  match data with JObject _ => False | _ => True end ->
  parse_categories r = ([], Raised AttributeError)
  /\ fst (parse_products r uid page) = []
  /\ (snd (parse_products r uid page) = Raised TypeError
      \/ snd (parse_products r uid page) = Raised AttributeError).
Proof.
  intros Hb Hd.
  unfold parse_categories, parse_products, json_loads. rewrite Hb. cbn [eval].
  destruct data as [| | | |s|l|d]; try contradiction; cbn; try tauto.
  - destruct (Py.occurs "errors" s); cbn; tauto.
  - destruct (existsb _ l); cbn; tauto.
Qed.

(** X16 (witness): the body [[]]. *)
Lemma body_not_a_dict_raises_witness :
  parse_categories (mkResponse api_url (Decoded (JArray []))) = ([], Raised AttributeError)
  /\ parse_products (mkResponse api_url (Decoded (JArray []))) (JString "NDE=") 1
     = ([], Raised AttributeError).
Proof.
  destruct (body_not_a_dict_raises (mkResponse api_url (Decoded (JArray []))) (JArray [])
              (JString "NDE=") 1 eq_refl I) as (Hc & _ & _).
  split; [exact Hc|reflexivity].
Defined.

(** X17. The exact domain of the normalizer: it returns a record on a dict
    in which each of [price_range], [maximum_price], [final_price],
    [regular_price], [discount], [small_image] and [description] is absent
    or a dict; on every other value (a dict with one of these present and
    not a dict, e.g. null; or a non-dict) it raises [AttributeError] and
    nothing else. *)
Theorem process_product_item_domain (item : json) :
  (exists d r, item = JObject d /\ well_nested d = true
               /\ process_product_item item = Ok r)
  \/ ((forall d, item = JObject d -> well_nested d = false)
      /\ process_product_item item = Exc AttributeError).
Proof.
  destruct item as [| | | | | |d];
    try (right; split; [intros d [=]|reflexivity]).
  destruct (well_nested d) eqn:W.
  - left. exists d. eexists. split; [reflexivity|]. split; [exact W|].
    apply (process_product_item_well_nested d W).
  - right. split; [intros d' [= <-]; exact W|].
    apply (process_product_item_ill_nested d W).
Qed.



End BodiesAndNodes.

(* ===================================================================== *)
(** ** The crawl: category resolution, then the pages *)
(* ===================================================================== *)

(** The callback of the start request, [parse_categories], on the category
    response, then every product request served in turn. *)
Definition crawl (fuel : nat) (category_response : Response) (server : Engine.Server)
  : option (list event) :=
  let first := fst (ElectricHouseSpider.parse_categories category_response) in
  option_map (app first) (Engine.run fuel server (Engine.requests_of first)).

Section WholeCrawl.

Import Gen ElectricHouseSpider Engine.

Variable server : Server.

(** Every request made while serving [pending] continues one of the pending
    requests: same category, a later page, and every page in between has
    been requested too. *)
Lemma run_requests_continue_pending (fuel : nat) :
  forall (pending : list (json * Z)) (trace : list event),
    run fuel server pending = Some trace ->
    Forall documented (items_of trace)
    /\ forall u p,
        In (u, p) (requests_of trace) ->
        exists p0,
          In (u, p0) pending /\ p0 < p
          /\ forall q, p0 < q <= p -> In (u, q) (requests_of trace).
Proof.
  induction fuel as [|fuel IH]; intros pending trace Hrun.
  - destruct pending as [|[u0 p0] rest]; [|discriminate Hrun].
    injection Hrun as <-. split; [constructor|]. intros u p [].
  - destruct pending as [|[u0 p0] rest].
    { injection Hrun as <-. split; [constructor|]. intros u p []. }
    cbn [run] in Hrun.
    destruct (run fuel server _) as [later|] eqn:Hlater; [|discriminate Hrun].
    cbn [option_map] in Hrun. injection Hrun as <-.
    destruct (IH _ _ Hlater) as [Hdoc' Hcont].
    destruct (parse_products_yields (server u0 p0) u0 p0) as [Hreq Hdoc].
    split; [rewrite items_of_app; apply Forall_app; split; assumption|].
    intros u p Hin. rewrite requests_of_app in Hin |- *.
    apply in_app_or in Hin. destruct Hin as [Hin|Hin].
    + destruct Hreq as [Hreq|Hreq]; rewrite Hreq in Hin |- *; [destruct Hin|].
      destruct Hin as [[= <- <-]|[]].
      exists p0. split; [now left|]. split; [lia|].
      intros q Hq. replace q with (p0 + 1) by lia. now left.
    + destruct (Hcont u p Hin) as (p1 & Hp1 & Hlt & Hbetween).
      apply in_app_or in Hp1. destruct Hp1 as [Hp1|Hp1].
      * exists p1. split; [now right|]. split; [exact Hlt|].
        intros q Hq. apply in_or_app. right. now apply Hbetween.
      * destruct Hreq as [Hreq|Hreq]; rewrite Hreq in Hp1 |- *; [destruct Hp1|].
        destruct Hp1 as [[= <- <-]|[]].
        exists p0. split; [now left|]. split; [lia|].
        intros q Hq. apply in_or_app.
        destruct (Z.eq_dec q (p0 + 1)) as [->|Hne]; [left; now left|].
        right. apply Hbetween. lia.
Qed.

(** X19. Whatever the category response and the server's answers, a crawl
    that comes to an end has requested product pages only for uids that the
    category traversal yielded (truthy ones), from page 1 on and without a
    gap: a request for page p of a category comes with requests for every
    page 1..p of it; and every item yielded is a documented record. *)
Theorem crawl_requests_only_resolved_categories (fuel : nat)
        (category_response : Response) (trace : list event) :
  crawl fuel category_response server = Some trace ->
  Forall documented (items_of trace)
  /\ forall u p,
      In (u, p) (requests_of trace) ->
      In (u, 1) (requests_of (fst (parse_categories category_response)))
      /\ Py.truthy u = true
      /\ 1 <= p
      /\ forall q, 1 <= q <= p -> In (u, q) (requests_of trace).
Proof.
  unfold crawl.
  destruct (run fuel server _) as [later|] eqn:Hlater; [|discriminate].
  cbn [option_map]. intros [= <-].
  destruct (run_requests_continue_pending _ _ _ Hlater) as [Hdoc Hcont].
  assert (Hfirst : forall u p,
             In (u, p) (requests_of (fst (parse_categories category_response))) ->
             p = 1 /\ Py.truthy u = true).
  { intros u p Hin.
    destruct (parse_categories_cases category_response)
      as [[_ Hg]|[[Hg _]|(n & starts & _ & Hg & Hst & _)]]; cbn zeta in Hg.
    - rewrite Hg in Hin. destruct Hin.
    - rewrite Hg in Hin. destruct Hin.
    - rewrite Hg, requests_of_log in Hin.
      unfold requests_of in Hin. apply in_flat_map in Hin.
      destruct Hin as (e & He & Hin).
      rewrite Forall_forall in Hst. destruct (Hst e He) as (uid & -> & Ht).
      destruct Hin as [[= <- <-]|[]]. now split. }
  assert (Hnoitem : items_of (fst (parse_categories category_response)) = []).
  { destruct (parse_categories_cases category_response)
      as [[_ Hg]|[[Hg _]|(n & starts & _ & Hg & Hst & _)]]; cbn zeta in Hg; rewrite Hg;
      try reflexivity.
    rewrite items_of_log. clear Hg.
    induction Hst as [|e starts (uid & -> & _) _ IHs]; [reflexivity|exact IHs]. }
  split; [rewrite items_of_app, Hnoitem; exact Hdoc|].
  intros u p Hin. rewrite requests_of_app in Hin |- *.
  apply in_app_or in Hin. destruct Hin as [Hin|Hin].
  - destruct (Hfirst u p Hin) as [-> Ht].
    split; [exact Hin|]. split; [exact Ht|]. split; [lia|].
    intros q Hq. replace q with 1 by lia. apply in_or_app. now left.
  - destruct (Hcont u p Hin) as (p0 & Hp0 & Hlt & Hbetween).
    destruct (Hfirst u p0 Hp0) as [-> Ht].
    split; [exact Hp0|]. split; [exact Ht|]. split; [lia|].
    intros q Hq. apply in_or_app.
    destruct (Z.eq_dec q 1) as [->|Hne]; [left; exact Hp0|].
    right. apply Hbetween. lia.
Qed.

End WholeCrawl.

(** X19 (witness): two leaf categories, one page each. *)
Lemma crawl_requests_only_resolved_categories_witness :
  let t := [Category 1 "MQ==" "Fans" "fans" []; Category 2 "Mg==" "Irons" "irons" []] in
  let server := fun (_ : json) (p : Z) => page_response [] p (JInt 1) in
  exists trace,
    crawl 2 (tree_response t) server = Some trace
    /\ Engine.requests_of trace = [(JString "MQ==", 1); (JString "Mg==", 1)]
    /\ Forall documented (Engine.items_of trace).
Proof.
  cbv zeta. eexists. split; [reflexivity|]. split; [reflexivity|].
  exact (proj1 (crawl_requests_only_resolved_categories
                  (fun (_ : json) (p : Z) => page_response [] p (JInt 1)) 2
                  (tree_response
                     [Category 1 "MQ==" "Fans" "fans" [];
                      Category 2 "Mg==" "Irons" "irons" []])
                  _ eq_refl)).
Defined.

(* ===================================================================== *)
(** ** The spider object: class attributes, construction, requests *)
(* ===================================================================== *)

(** [headers] is an attribute of the class: one dict, which [self.headers]
    finds from every instance. The request constructor copies it, so a
    request carries the headers as they are when the request is made. The
    request body is [json.dumps(payload)]; the model keeps the payload. *)
Module SpiderObject.

Definition Headers : Type := list (string * string).

Fixpoint header (k : string) (h : Headers) : option string :=
  match h with
  | [] => None
  | (k', v) :: rest => if String.eqb k k' then Some v else header k rest
  end.

(** [h[k] = v] on a dict: the value of an existing key is replaced where it
    stands, a new key goes last. *)
Fixpoint setitem (k v : string) (h : Headers) : Headers :=
  match h with
  | [] => [(k, v)]
  | (k', v') :: rest =>
      if String.eqb k k' then (k, v) :: rest else (k', v') :: setitem k v rest
  end.

(** The class body. *)
Definition class_store_code : string := "en".

Definition class_headers : Headers :=
  [ ("Content-Type", "application/json");
    ("Store", class_store_code);
    ("User-Agent", "Mozilla/5.0 (Windows NT 10.0; Win64; x64) AppleWebKit/537.36 (KHTML, like Gecko) Chrome/91.0.4472.124 Safari/537.36") ].

(** The attributes an instance has of its own. *)
Record Spider : Type := mkSpider {
  store_code : string
}.

(** [__init__(self, store)] with the class's headers dict as it is before
    and after. *)
Definition init (store : string) (shared : Headers) : Spider * Headers :=
  let self := mkSpider store in
  (self, setitem "Store" (store_code self) shared).

Inductive Callback : Type :=
| parse_categories_callback
| parse_products_callback (category_uid : json) (page : Z).

Record ScrapyRequest : Type := mkRequest {
  request_url : string;
  request_method : string;
  request_headers : Headers;
  request_payload : json;
  request_callback : Callback;
  request_errback_handle_error : bool;
  request_handle_httpstatus_list : list Z;
  request_dont_filter : bool
}.

Definition category_query : string := "
        query categoryList {
            categoryList {
                id
                uid
                name
                url_path
                children {
                    id
                    uid
                    name
                    url_path
                    children {
                        id
                        uid
                        name
                        url_path
                        children {
                            id
                            uid
                            name
                            url_path
                        }
                    }
                }
            }
        }
        ".

Definition products_query : string := "
        query getProducts($uid: String!, $page: Int!) {
            products(
                filter: { category_uid: { eq: $uid } }
                pageSize: 20
                currentPage: $page
            ) {
                total_count
                page_info {
                    current_page
                    total_pages
                }
                items {
                    id
                    uid
                    sku
                    name
                    stock_status
                    url_key
                    price_range {
                        maximum_price {
                            final_price {
                                value
                                currency
                            }
                            regular_price {
                                value
                                currency
                            }
                            discount {
                                amount_off
                                percent_off
                            }
                        }
                    }
                    small_image {
                        url
                    }
                    description {
                        html
                    }
                }
            }
        }
        ".

(** [start_requests(self)]. *)
Definition start_requests (self : Spider) (shared : Headers) : list ScrapyRequest :=
  [ mkRequest ElectricHouseSpider.api_url "POST" shared
              (JObject [("query", JString category_query); ("variables", JObject [])])
              parse_categories_callback true [] false ].

(** The request that [fetch_products(self, category_uid, page)] yields. *)
Definition product_request (self : Spider) (shared : Headers)
           (category_uid : json) (page : Z) : ScrapyRequest :=
  mkRequest ElectricHouseSpider.api_url "POST" shared
            (JObject [("query", JString products_query);
                      ("variables", JObject [("uid", category_uid); ("page", JInt page)])])
            (parse_products_callback category_uid page) false [400; 404; 500] true.

End SpiderObject.

Section SharedHeaders.

Import SpiderObject.

Lemma header_setitem_same (k v : string) (h : Headers) :
  header k (setitem k v h) = Some v.
Proof.
  induction h as [|[k' v'] h IH]; cbn.
  - now rewrite String.eqb_refl.
  - destruct (String.eqb k k') eqn:E; cbn; [now rewrite String.eqb_refl|].
    now rewrite E.
Qed.

Lemma header_setitem_other (k k' v : string) (h : Headers) :
  k' <> k -> header k' (setitem k v h) = header k' h.
Proof.
  intros Hne. induction h as [|[k0 v0] h IH]; cbn.
  - destruct (String.eqb_spec k' k); [contradiction|reflexivity].
  - destruct (String.eqb_spec k k0) as [->|Hk]; cbn.
    + destruct (String.eqb_spec k' k0); [contradiction|reflexivity].
    + destruct (String.eqb k' k0); [reflexivity|exact IH].
Qed.

(** X20. The [Store] header belongs to the class, not to the spider: once a
    second spider has been constructed, every request the first one makes
    (the start request and the product requests) carries the second one's
    store, while the first one's [store_code] is still its own; the other
    headers are what they were. *)
Theorem store_header_follows_last_constructed (store1 store2 : string)
        (shared : Headers) :
  let first := fst (init store1 shared) in
  let after := snd (init store2 (snd (init store1 shared))) in
  store_code first = store1
  /\ (forall rq, In rq (start_requests first after) ->
                 header "Store" (request_headers rq) = Some store2)
  /\ (forall uid page,
        header "Store" (request_headers (product_request first after uid page))
        = Some store2)
  /\ (forall k, k <> "Store" -> header k after = header k shared).
Proof.
  cbn zeta. unfold init. cbn [fst snd store_code].
  split; [reflexivity|]. split; [|split].
  - intros rq [<-|[]]. cbn [request_headers]. apply header_setitem_same.
  - intros uid page. cbn [product_request request_headers]. apply header_setitem_same.
  - intros k Hk. now rewrite !header_setitem_other.
Qed.

End SharedHeaders.
